(** * room-scraper: the OLX and Otodom crawls and the price sort of [main]

    A shallow embedding of [src/scrapers/olx.ts], [src/scrapers/otodom.ts]
    and the aggregation of [src/index.ts].

    - JavaScript strings are byte strings holding UTF-8, so that the
      non-ASCII keywords and patterns of the source are ordinary literals;
      [includes], [startsWith] and concatenation agree with their
      JavaScript counterparts on such strings.
    - The numbers of [SearchOptions] come from [parseInt] on command-line
      text: an integer or [NaN]; numbers that are not integers, which
      [parseInt] never returns, are outside this model.  Prices and areas
      are [parseInt] of a matched run of decimal digits: an integer, never
      [NaN].
    - The browser is what the scrapers see of it: a map from the URL given
      to [page.goto] to the rendered document, or to a failure when the
      navigation (or a later step on that page) rejects and the scraper
      rejects with it; a document answers the DOM queries of
      [page.evaluate].  Waits, delays, the cookie banner and the log lines
      have no part in what a scraper returns and are left out.  [scrape]
      is a scraper from the first loop iteration to its [return], in a
      browser that starts and closes; [scrapeWith] adds the start of the
      browser before the [try] block and its close in [finally], which can
      reject as well.
    - [Array.prototype.sort] is the stable merge sort of the engine the
      program runs on. *)

From Stdlib Require Import ZArith List String Ascii Bool Lia.
From Stdlib Require Import Permutation Sorted.
From Stdlib Require Import DecimalString.
From Stdlib Require DecimalZ.
From Equations Require Import Equations.
Import ListNotations.

Set Warnings "-register-all".

Local Open Scope string_scope.
Local Open Scope Z_scope.

(** ** JavaScript values *)

Module JS.

(** A [number] as [parseInt] produces it: [NaN] or an integer.  Numbers
    that are not integers are not modelled. *)
Inductive number : Type :=
| NaN
| Int (z : Z).

(** Truthiness of an optional number: [undefined], [NaN] and [0] are falsy. *)
Definition truthy (v : option number) : option Z :=
  match v with
  | Some (Int z) => if z =? 0 then None else Some z
  | _ => None
  end.

(** [v || d] for an optional number and an integer default. *)
Definition orElse (v : option number) (d : Z) : Z :=
  match truthy v with
  | Some z => z
  | None => d
  end.

(** Truthiness of an optional string: [undefined] and [""] are falsy. *)
Definition truthyStr (v : option string) : option string :=
  match v with
  | Some s => if String.eqb s "" then None else Some s
  | None => None
  end.

(** [v || d] for an optional string and a string default. *)
Definition orElseStr (v : option string) (d : string) : string :=
  match truthyStr v with
  | Some s => s
  | None => d
  end.

(** Template interpolation of an integer-valued number. *)
Definition showZ (z : Z) : string :=
  NilZero.string_of_int (Z.to_int z).

(** [s.startsWith(t)] *)
Definition startsWith (s t : string) : bool := String.prefix t s.

(** [s.includes(t)] *)
Fixpoint includes (s t : string) : bool :=
  String.prefix t s ||
  match s with
  | EmptyString => false
  | String _ s' => includes s' t
  end.

(** [parts.join(sep)] *)
Fixpoint join (sep : string) (parts : list string) : string :=
  match parts with
  | [] => ""
  | [p] => p
  | p :: rest => p ++ sep ++ join sep rest
  end.

(** [s.split(sep)[0]]: the text before the first occurrence of a
    non-empty separator, the whole text when there is none. *)
Fixpoint splitHead (sep s : string) : string :=
  if String.prefix sep s then ""
  else match s with
       | EmptyString => ""
       | String c s' => String c (splitHead sep s')
       end.

(** *** Unicode white space and the regular expressions of the scrapers

    [\s] and [trim] know the same characters: TAB, LF, VT, FF, CR, SP,
    U+00A0, U+1680, U+2000..U+200A, U+2028, U+2029, U+202F, U+205F,
    U+3000 and U+FEFF, here in their UTF-8 encodings. *)

Definition utf8 (bytes : list nat) : string :=
  fold_right (fun b s => String (ascii_of_nat b) s) "" bytes.

Definition whiteSpace : list string :=
  map utf8
    (List.app
       [[9]; [10]; [11]; [12]; [13]; [32]; [194; 160]; [225; 154; 128]]
       (List.app
          (map (fun b => [226; 128; b]) (seq 128 11))
          [[226; 128; 168]; [226; 128; 169]; [226; 128; 175];
           [226; 129; 159]; [227; 128; 128]; [239; 187; 191]]))%nat.

(** Width in bytes of the character at the head of [s] when it is one of
    [chars], [0] otherwise. *)
Definition widthOf (chars : list string) (s : string) : nat :=
  match find (fun w => String.prefix w s) chars with
  | Some w => String.length w
  | None => 0%nat
  end.

Definition wsWidth : string -> nat := widthOf whiteSpace.

Definition isDigit (c : ascii) : bool :=
  let n := nat_of_ascii c in (48 <=? n)%nat && (n <=? 57)%nat.

(** [s.replace(/\s/g, "")]; [pending] counts the bytes still to drop of a
    multi-byte white space character. *)
Fixpoint removeWsFrom (pending : nat) (s : string) : string :=
  match s with
  | EmptyString => ""
  | String c r =>
      match pending with
      | S p => removeWsFrom p r
      | O => match wsWidth s with
             | S w => removeWsFrom w r
             | O => String c (removeWsFrom 0 r)
             end
      end
  end.

Definition removeWs : string -> string := removeWsFrom 0.

(** [s.trimStart()] *)
Fixpoint trimStartFrom (pending : nat) (s : string) : string :=
  match s with
  | EmptyString => ""
  | String _ r =>
      match pending with
      | S p => trimStartFrom p r
      | O => match wsWidth s with
             | S w => trimStartFrom w r
             | O => s
             end
      end
  end.

Definition trimStart : string -> string := trimStartFrom 0.

(** [s.trimEnd()]: the text up to the point from where only white space
    follows. *)
Fixpoint trimEnd (s : string) : string :=
  match s with
  | EmptyString => ""
  | String c r =>
      if String.eqb (trimStart s) "" then "" else String c (trimEnd r)
  end.

(** [s.trim()] *)
Definition trim (s : string) : string := trimEnd (trimStart s).

(** The longest prefix made of characters accepted by [width] (a width of
    [0] rejects), and what follows it. *)
Fixpoint spanFrom (width : string -> nat) (pending : nat) (s : string)
  : string * string :=
  match s with
  | EmptyString => ("", "")
  | String c r =>
      let keep p := let '(run, rest) := spanFrom width p r in (String c run, rest) in
      match pending with
      | S p => keep p
      | O => match width s with
             | S w => keep w
             | O => ("", s)
             end
      end
  end.

Definition digitWidth (s : string) : nat :=
  match s with
  | String c _ => if isDigit c then 1%nat else 0%nat
  | EmptyString => 0%nat
  end.

(** Capture 1 of [s.match(/(\d+)/)]: the first run of decimal digits. *)
Fixpoint matchDigits (s : string) : option string :=
  match s with
  | EmptyString => None
  | String c r =>
      if isDigit c then Some (fst (spanFrom digitWidth 0 s)) else matchDigits r
  end.

(** [parseInt(digits, 10)] on a run of decimal digits, most significant
    first; [acc] is the value read so far. *)
Fixpoint parseDigits (acc : Z) (s : string) : Z :=
  match s with
  | String c r =>
      if isDigit c then parseDigits (10 * acc + (Z.of_nat (nat_of_ascii c) - 48)) r
      else acc
  | EmptyString => acc
  end.

Definition parseInt (s : string) : Z := parseDigits 0 s.

Definition digitOrWsWidth (s : string) : nat :=
  match digitWidth s with
  | O => wsWidth s
  | w => w
  end.

(** Capture 1 of the price pattern of Otodom, matched without regard to
    case: a group of one digit and then any digits and white space, more
    white space, and the currency marker "zł".  The match starts at the
    leftmost digit whose run of digits and white space is followed by the
    marker, and the greedy group takes the whole run. *)
Fixpoint matchPriceZl (s : string) : option string :=
  match s with
  | EmptyString => None
  | String c r =>
      let '(run, rest) := spanFrom digitOrWsWidth 0 s in
      if isDigit c && existsb (fun m => String.prefix m rest) ["zł"; "zŁ"; "Zł"; "ZŁ"]
      then Some run
      else matchPriceZl r
  end.

Definition lowerAscii (c : ascii) : ascii :=
  let n := nat_of_ascii c in
  if (65 <=? n)%nat && (n <=? 90)%nat then ascii_of_nat (n + 32) else c.

(** Does [s] start with the lower-case ASCII text [pat], case ignored? *)
Fixpoint prefixNoCase (pat s : string) : option string :=
  match pat, s with
  | EmptyString, _ => Some s
  | String p pat', String c s' =>
      if Ascii.eqb p (lowerAscii c) then prefixNoCase pat' s' else None
  | String _ _, EmptyString => None
  end.

(** The class [[\wąćęłńóśźżĄĆĘŁŃÓŚŹŻ-]]. *)
Definition wordWidth (s : string) : nat :=
  match s with
  | String c _ =>
      let n := nat_of_ascii (lowerAscii c) in
      if ((97 <=? n)%nat && (n <=? 122)%nat) || isDigit c
         || (n =? 95)%nat || (n =? 45)%nat
      then 1%nat
      else widthOf ["ą"; "ć"; "ę"; "ł"; "ń"; "ó"; "ś"; "ź"; "ż";
                    "Ą"; "Ć"; "Ę"; "Ł"; "Ń"; "Ó"; "Ś"; "Ź"; "Ż"] s
  | EmptyString => 0%nat
  end.

(** Capture 1 of a location pattern of Otodom, matched without regard to
    case: "Warszawa," and any white space when [comma], "Warszawa" and at
    least one white space character otherwise, then a group of one or more
    characters of the class above. *)
Fixpoint matchDistrict (comma : bool) (s : string) : option string :=
  let here :=
    match prefixNoCase (if comma then "warszawa," else "warszawa") s with
    | Some rest =>
        if comma || negb (wsWidth rest =? 0)%nat
        then match fst (spanFrom wordWidth 0 (trimStart rest)) with
             | EmptyString => None
             | run => Some run
             end
        else None
    | None => None
    end in
  match here, s with
  | Some run, _ => Some run
  | None, String _ r => matchDistrict comma r
  | None, EmptyString => None
  end.

(** [parseInt(text, 10)] on any text, as [index.ts] applies it to the
    command-line arguments: leading white space is skipped, a sign is
    read, and the longest run of decimal digits that follows is the value;
    without a digit there the result is [NaN]. *)
Definition parseIntArg (text : string) : number :=
  let s := trimStart text in
  let '(negative, digits) :=
    match s with
    | String c r =>
        if Ascii.eqb c "-" then (true, r)
        else if Ascii.eqb c "+" then (false, r)
        else (false, s)
    | EmptyString => (false, s)
    end in
  if (0 <? digitWidth digits)%nat
  then Int (if negative then - parseDigits 0 digits else parseDigits 0 digits)
  else NaN.

(** [s.repeat(count)] *)
Fixpoint repeat (s : string) (count : nat) : string :=
  match count with
  | O => ""
  | S count' => s ++ repeat s count'
  end.

End JS.

(** ** [types.ts] *)

Inductive Source : Type := olx | otodom.

(** [Room]; its optional [roomType] is set by neither scraper and is
    left out. *)
Record Room : Type := mkRoom {
  title : string;
  price : option Z;          (* number | null *)
  currency : string;
  location : string;
  url : string;
  source : Source;
  area : option Z;
  imageUrl : option string
}.

Record SearchOptions : Type := mkOptions {
  maxPrice : option JS.number;
  roomType : option string;
  pages : option JS.number
}.

Definition MAX_PAGES : Z := 10.

(** [Math.min(options.pages || 5, MAX_PAGES)] *)
Definition pagesToScrape (options : SearchOptions) : Z :=
  Z.min (JS.orElse (pages options) 5) MAX_PAGES.

(** ** What the scrapers see of the browser *)

(** The DOM queries made inside [page.evaluate]. *)
Class Dom (Element : Type) : Type := {
  querySelector : Element -> string -> option Element;
  closest : Element -> string -> option Element;
  textContent : Element -> option string;
  getAttribute : Element -> string -> option string;
  tagName : Element -> string
}.

(** [String.prototype.toLowerCase], which follows the Unicode case tables
    of the runtime. *)
Class CaseMapping : Type := toLowerCase : string -> string.

(** A rendered document: the elements [document.querySelectorAll] finds for
    a selector, in document order. *)
Definition Document (Element : Type) : Type := string -> list Element.

(** [page.goto(url)] followed by the waits: the rendered document, or
    [None] when the navigation (or a later step on the page) rejects. *)
Definition Web (Element : Type) : Type := string -> option (Document Element).

(** A double quote, and a quoted attribute value of a selector. *)
Definition dq : string := String (ascii_of_nat 34) "".
Definition q (value : string) : string := dq ++ value ++ dq.

(** [a || b] on element references. *)
Definition orEl {A : Type} (a b : option A) : option A :=
  match a with
  | Some _ => a
  | None => b
  end.

(** [a?.f] *)
Definition chain {A B : Type} (a : option A) (f : A -> option B) : option B :=
  match a with
  | Some x => f x
  | None => None
  end.

(** [getRoomTypeKeywords], the same table in both scrapers. *)
Definition getRoomTypeKeywords (roomType : string) : list string :=
  if String.eqb roomType "single" then
    ["jednoosobowy"; "1-osobowy"; "single"; "dla jednej"]
  else if String.eqb roomType "shared" then
    ["współlokator"; "współdziel"; "shared"; "2-osobowy"; "dwuosobowy"]
  else if String.eqb roomType "studio" then
    ["kawalerka"; "studio"; "garsoniera"]
  else if String.eqb roomType "apartment" then
    ["mieszkanie"; "apartment"; "flat"]
  else [].

(** [if (!list.some((r) => r.url === room.url)) list.push(room)] *)
Definition pushUnique (seen : list Room) (room : Room) : list Room :=
  if existsb (fun r => String.eqb (url r) (url room)) seen
  then seen
  else List.app seen [room].

(** [for (const room of rooms) ...] adding the unseen rooms of a page. *)
Definition addUnique (allRooms rooms : list Room) : list Room :=
  fold_left pushUnique rooms allRooms.

Section Scrapers.

Context {Element : Type} `{Dom Element} `{CaseMapping}.

Definition documentQuerySelector (document : Document Element) (selector : string)
  : option Element :=
  hd_error (document selector).

(** The first selector of the list that finds any element decides the cards. *)
Fixpoint findCards (document : Document Element) (selectors : list string)
  : list Element :=
  match selectors with
  | [] => []
  | selector :: rest =>
      match document selector with
      | [] => findCards document rest
      | found => found
      end
  end.

(** [cards.forEach]: [listing] is the body up to the duplicate check, the
    listing a card stands for or [None] when the card is skipped; the
    listing is pushed unless its [url] was produced earlier on the page. *)
Definition cardsToListings (listing : Element -> option Room) (cards : list Element)
  : list Room :=
  fold_left
    (fun listings card =>
       match listing card with
       | Some room => pushUnique listings room
       | None => listings
       end)
    cards [].

(** [imgEl?.getAttribute("src")] for the first [img] of a container. *)
Definition thumbnailSrc (container : Element) : option string :=
  let imgEl := querySelector container "img" in
  chain imgEl (fun el => getAttribute el "src").

(** *** [scrapers/olx.ts] *)

Definition olxSelectors : list string :=
  [ "[data-testid=" ++ q "listing-grid" ++ "] [data-testid=" ++ q "adCard" ++ "]";
    "[data-cy=" ++ q "l-card" ++ "]";
    "div[data-testid=" ++ q "listing-grid" ++ "] > div > div";
    "a[href*=" ++ q "/d/oferta/" ++ "]" ].

Definition olxContainer (card : Element) : Element :=
  match orEl (closest card ("[data-cy=" ++ q "l-card" ++ "]"))
             (closest card ("[data-testid=" ++ q "adCard" ++ "]")) with
  | Some el => el
  | None => card
  end.

(** [titleEl?.textContent?.trim()] *)
Definition olxTitleText (container : Element) : option string :=
  let titleEl := querySelector container "h4, h6, [data-cy='ad-title']" in
  option_map JS.trim (chain titleEl textContent).

(** [locationEl?.textContent?.split(" - ")[0]?.trim()] *)
Definition olxLocationText (container : Element) : option string :=
  let locationEl :=
    querySelector container
      ("[data-testid=" ++ q "location-date" ++ "], [data-cy=" ++ q "location-date" ++ "]") in
  option_map (fun t => JS.trim (JS.splitHead " - " t)) (chain locationEl textContent).

Definition olxListing (card : Element) : option Room :=
  let container := olxContainer card in
  let linkEl :=
    orEl (querySelector container "a")
         (if String.eqb (tagName card) "A" then Some card else None) in
  let priceEl :=
    querySelector container
      ("[data-testid=" ++ q "ad-price" ++ "], [data-cy=" ++ q "ad-price" ++ "]") in
  match linkEl with
  | None => None
  | Some linkEl =>
      let priceText := JS.orElseStr (chain priceEl textContent) "" in
      let priceMatch := JS.matchDigits (JS.removeWs priceText) in
      let price := option_map JS.parseInt priceMatch in
      let href := JS.orElseStr (getAttribute linkEl "href") "" in
      if negb (JS.includes href "/d/") && negb (JS.includes href "/oferta/")
      then None
      else
        let fullUrl :=
          if JS.startsWith href "http" then href else "https://www.olx.pl" ++ href in
        Some {|
          title := JS.orElseStr (olxTitleText container) "Room listing";
          price := price;
          currency := "PLN";
          location := JS.orElseStr (olxLocationText container) "Warszawa";
          url := fullUrl;
          source := olx;
          area := None;
          imageUrl := JS.truthyStr (thumbnailSrc container)
        |}
  end.

Definition olxExtract (document : Document Element) : list Room :=
  cardsToListings olxListing (findCards document olxSelectors).

Definition olxHasNextPage (document : Document Element) : bool :=
  match documentQuerySelector document ("[data-testid=" ++ q "pagination-forward" ++ "]") with
  | Some nextBtn =>
      match getAttribute nextBtn "disabled" with
      | Some _ => false
      | None => true
      end
  | None => false
  end.

(** *** [scrapers/otodom.ts] *)

Definition otodomSelectors : list string :=
  [ "[data-cy=" ++ q "listing-item" ++ "]";
    "[data-cy=" ++ q "search.listing.organic" ++ "] li";
    "ul[data-cy=" ++ q "search.listing" ++ "] > li";
    "a[href*=" ++ q "/pl/oferta/" ++ "]" ].

(** The test a match of a location pattern has to pass:
    [match && match[1] && !match[1].includes("zł") && !match[1].includes("Cena")]. *)
Definition acceptedDistrict (m : option string) : option string :=
  match JS.truthyStr m with
  | Some m1 =>
      if negb (JS.includes m1 "zł") && negb (JS.includes m1 "Cena")
      then Some m1 else None
  | None => None
  end.

(** The loop over [locationPatterns]. *)
Definition otodomLocation (allContainerText : string) : string :=
  match orEl (acceptedDistrict (JS.matchDistrict true allContainerText))
             (acceptedDistrict (JS.matchDistrict false allContainerText)) with
  | Some m1 => "Warszawa, " ++ m1
  | None => "Warszawa"
  end.

Definition otodomContainer (card : Element) : Element :=
  match orEl (closest card "li") (closest card "article") with
  | Some el => el
  | None => card
  end.

(** [titleEl?.textContent?.trim()] *)
Definition otodomTitleText (container : Element) : option string :=
  let titleEl :=
    orEl (querySelector container ("[data-cy=" ++ q "listing-item-title" ++ "]"))
         (orEl (querySelector container "h3") (querySelector container "p[data-cy]")) in
  option_map JS.trim (chain titleEl textContent).

Definition otodomListing (card : Element) : option Room :=
  let container := otodomContainer card in
  let linkEl :=
    orEl (querySelector container ("a[href*=" ++ q "/pl/oferta/" ++ "]"))
         (querySelector container "a") in
  let areaEl :=
    querySelector container ("span[aria-label*=" ++ q "Powierzchnia" ++ "]") in
  match linkEl with
  | None => None
  | Some linkEl =>
      let href := JS.orElseStr (getAttribute linkEl "href") "" in
      if negb (JS.includes href "/oferta/") then None
      else
        let allContainerText := JS.orElseStr (textContent container) "" in
        let price :=
          match JS.truthyStr (JS.matchPriceZl allContainerText) with
          | Some m1 => Some (JS.parseInt (JS.removeWs m1))
          | None => None
          end in
        let areaText := JS.orElseStr (chain areaEl textContent) "" in
        let area :=
          match JS.truthyStr (JS.matchDigits areaText) with
          | Some m1 => Some (JS.parseInt m1)
          | None => None
          end in
        let fullUrl :=
          if JS.startsWith href "http" then href else "https://www.otodom.pl" ++ href in
        let title := JS.orElseStr (otodomTitleText container) "" in
        let title := if String.eqb title "" then "Room in Warsaw" else title in
        Some {|
          title := title;
          price := price;
          currency := "PLN";
          location := otodomLocation allContainerText;
          url := fullUrl;
          source := otodom;
          area := area;
          imageUrl := JS.truthyStr (thumbnailSrc container)
        |}
  end.

Definition otodomExtract (document : Document Element) : list Room :=
  cardsToListings otodomListing (findCards document otodomSelectors).

Definition otodomHasNextPage (document : Document Element) : bool :=
  match orEl (documentQuerySelector document ("[data-cy=" ++ q "pagination.next-page" ++ "]"))
             (orEl (documentQuerySelector document ("a[aria-label*=" ++ q "next" ++ "]"))
                   (documentQuerySelector document
                      ("button[aria-label*=" ++ q "Następna" ++ "]"))) with
  | Some nextBtn =>
      match getAttribute nextBtn "disabled" with
      | Some _ => false
      | None => true
      end
  | None => false
  end.

(** *** The crawl both scrapers run

    [scrapeOlx] and [scrapeOtodom] are the same function body around what
    a [Site] holds: the listing URL, the name of the price parameter, the
    extraction, the test for a next page, and whether a page without
    listings ends the crawl. *)

Record Site : Type := mkSite {
  listingUrl : string;
  priceParam : string;
  extractListings : Document Element -> list Room;
  hasNextPage : Document Element -> bool;
  stopsOnEmptyPage : bool
}.

Definition olxSite : Site := {|
  listingUrl := "https://www.olx.pl/nieruchomosci/stancje-pokoje/warszawa/";
  priceParam := "search%5Bfilter_float_price%3Ato%5D";
  extractListings := olxExtract;
  hasNextPage := olxHasNextPage;
  stopsOnEmptyPage := false
|}.

Definition otodomSite : Site := {|
  listingUrl :=
    "https://www.otodom.pl/pl/wyniki/wynajem/pokoj/mazowieckie/warszawa/warszawa/warszawa";
  priceParam := "priceMax";
  extractListings := otodomExtract;
  hasNextPage := otodomHasNextPage;
  stopsOnEmptyPage := true
|}.

(** The array [params] of one loop iteration. *)
Definition pageParams (site : Site) (options : SearchOptions) (pageNum : Z)
  : list string :=
  List.app
    (match JS.truthy (maxPrice options) with
     | Some p => [priceParam site ++ "=" ++ JS.showZ p]
     | None => []
     end)
    (if pageNum >? 1 then ["page=" ++ JS.showZ pageNum] else []).

(** The [url] of one loop iteration. *)
Definition buildPageUrl (site : Site) (options : SearchOptions) (pageNum : Z)
  : string :=
  match pageParams site options pageNum with
  | [] => listingUrl site
  | params => listingUrl site ++ "?" ++ JS.join "&" params
  end.

(** What a run of a scraper did: the URLs it navigated to, in order, and
    the rooms it resolved with, or [None] when a navigation rejected. *)
Record Run : Type := mkRun {
  navigations : list string;
  resolved : option (list Room)
}.

Definition visit (pageUrl : string) (rest : Run) : Run :=
  {| navigations := pageUrl :: navigations rest; resolved := resolved rest |}.

(** The [for] loop, entered with the current [pageNum] and [allRooms]. *)
Equations? crawl (site : Site) (web : Web Element) (options : SearchOptions)
    (pagesToScrape : Z) (pageNum : Z) (allRooms : list Room) : Run
    by wf (Z.to_nat (pagesToScrape + 1 - pageNum)) lt :=
  crawl site web options pagesToScrape pageNum allRooms
    with Z_le_gt_dec pageNum pagesToScrape => {
    | right _ := {| navigations := []; resolved := Some allRooms |};
    | left _ with web (buildPageUrl site options pageNum) => {
      | None :=
          {| navigations := [buildPageUrl site options pageNum]; resolved := None |};
      | Some document :=
          let rooms := extractListings site document in
          let allRooms' := addUnique allRooms rooms in
          if negb (hasNextPage site document)
             || (stopsOnEmptyPage site && (Z.of_nat (List.length rooms) =? 0))
          then {| navigations := [buildPageUrl site options pageNum];
                  resolved := Some allRooms' |}
          else visit (buildPageUrl site options pageNum)
                 (crawl site web options pagesToScrape (pageNum + 1) allRooms') } }.
Proof. lia. Qed.

(** The filters applied after the loop. *)
Definition applyFilters (options : SearchOptions) (allRooms : list Room)
  : list Room :=
  let filteredRooms :=
    match JS.truthyStr (roomType options) with
    | Some roomType =>
        let keywords := getRoomTypeKeywords roomType in
        filter
          (fun room => existsb (fun kw => JS.includes (toLowerCase (title room)) kw) keywords)
          allRooms
    | None => allRooms
    end in
  match JS.truthy (maxPrice options) with
  | Some maxPrice =>
      filter
        (fun room =>
           match price room with
           | None => true
           | Some p => p <=? maxPrice
           end)
        filteredRooms
  | None => filteredRooms
  end.

(** The [try] block of a scraper, from the loop to [return filteredRooms],
    in a browser that has started and that closes. *)
Definition scrape (site : Site) (web : Web Element) (options : SearchOptions) : Run :=
  let run := crawl site web options (pagesToScrape options) 1 [] in
  {| navigations := navigations run;
     resolved := option_map (applyFilters options) (resolved run) |}.

Definition scrapeOlx : Web Element -> SearchOptions -> Run := scrape olxSite.
Definition scrapeOtodom : Web Element -> SearchOptions -> Run := scrape otodomSite.

End Scrapers.

(** *** The browser around the crawl

    Before its [try] block a scraper launches the browser, opens a page
    and sets the user agent; in [finally] it closes the browser.  Each of
    these steps can reject, and the scraper rejects with it. *)

Record Browser (Element : Type) : Type := mkBrowser {
  starts : bool;            (* launch, newPage and setUserAgent resolve *)
  renders : Web Element;    (* what page.goto finds *)
  closes : bool             (* browser.close() resolves *)
}.

Arguments mkBrowser {Element}.
Arguments starts {Element}.
Arguments renders {Element}.
Arguments closes {Element}.

Section Session.

Context {Element : Type} `{Dom Element} `{CaseMapping}.

(** A whole scraper: nothing is navigated to when the browser does not
    start; otherwise the [try] block runs, and its result is returned when
    [browser.close()] resolves. *)
Definition scrapeWith (site : Site) (browser : Browser Element)
    (options : SearchOptions) : Run :=
  if starts browser then
    let run := scrape site (renders browser) options in
    {| navigations := navigations run;
       resolved := if closes browser then resolved run else None |}
  else {| navigations := []; resolved := None |}.

End Session.

(** ** [Array.prototype.sort] with a comparator

    The program runs on Bun, whose engine sorts stably by merging runs
    bottom-up: pass after pass each run is merged with its right neighbour
    (a run without neighbour is kept as it is) until one run is left.  The
    only question the engine asks the comparator is whether a later
    element goes ahead of an earlier one: a merge moves the head of the
    right run ahead of the head of the left run exactly when
    [comparator(right, left) < 0].  Here the first runs are the single
    elements. *)

Section ArraySort.

Context {A : Type} (comparator : A -> A -> Z).

Fixpoint merge (leftRun rightRun : list A) : list A :=
  match leftRun with
  | [] => rightRun
  | l :: leftRest =>
      (fix mergeInto (rightRun : list A) : list A :=
         match rightRun with
         | [] => leftRun
         | r :: rightRest =>
             if comparator r l <? 0
             then r :: mergeInto rightRest
             else l :: merge leftRest rightRun
         end) rightRun
  end.

Fixpoint mergePairs (runs : list (list A)) : list (list A) :=
  match runs with
  | leftRun :: rightRun :: rest => merge leftRun rightRun :: mergePairs rest
  | _ => runs
  end.

Fixpoint mergePasses (passes : nat) (runs : list (list A)) : list (list A) :=
  match passes, runs with
  | S passes', _ :: _ :: _ => mergePasses passes' (mergePairs runs)
  | _, _ => runs
  end.

Definition sort (array : list A) : list A :=
  List.concat (mergePasses (List.length array) (map (fun x => [x]) array)).

End ArraySort.

(** ** [index.ts] *)

(** The comparator given to [rooms.sort]. *)
Definition compareRooms (a b : Room) : Z :=
  match price a with
  | None => 1
  | Some pa =>
      match price b with
      | None => -1
      | Some pb => pa - pb
      end
  end.

Definition sortRooms (rooms : list Room) : list Room := sort compareRooms rooms.

Section Main.

Context {Element : Type} `{Dom Element} `{CaseMapping}.

(** The body of [main] up to the output: the rooms of the requested
    sources, sorted; [None] when a scraper rejects.  [source] is the
    lower-cased [--source] argument. *)
Definition aggregate (source : string) (web : Web Element) (options : SearchOptions)
  : option (list Room) :=
  let wanted (name : string) : bool :=
    String.eqb source "all" || String.eqb source name in
  let rooms : list Room := [] in
  match (if wanted "olx" then resolved (scrapeOlx web options) else Some []) with
  | None => None
  | Some olxRooms =>
      let rooms := List.app rooms olxRooms in
      match (if wanted "otodom" then resolved (scrapeOtodom web options) else Some []) with
      | None => None
      | Some otodomRooms =>
          let rooms := List.app rooms otodomRooms in
          Some (sortRooms rooms)
      end
  end.

End Main.

(** The [values] that [parseArgs] hands to [index.ts]: the text of each
    option, absent when the option has neither an argument nor a default. *)
Module Cli.

Record values : Type := mkValues {
  maxPrice : option string;
  roomType : option string;
  source : option string;    (* default "all" *)
  pages : option string;     (* default "5" *)
  json : bool;
  help : bool
}.

End Cli.

(** The [options] built from the command line. *)
Definition cliOptions (values : Cli.values) : SearchOptions :=
  {| maxPrice :=
       match JS.truthyStr (Cli.maxPrice values) with
       | Some text => Some (JS.parseIntArg text)
       | None => None
       end;
     roomType := Cli.roomType values;
     pages :=
       match JS.truthyStr (Cli.pages values) with
       | Some text => Some (JS.parseIntArg text)
       | None => Some (JS.Int 5)
       end |}.

Section MainEntry.

Context {Element : Type} `{Dom Element} `{CaseMapping}.

(** [main] up to the output: the sorted rooms for the command line, [None]
    when a scraper rejects.  An absent [source] equals no source name. *)
Definition main (values : Cli.values) (web : Web Element) : option (list Room) :=
  match Cli.source values with
  | Some source => aggregate (toLowerCase source) web (cliOptions values)
  | None => Some (sortRooms [])
  end.

End MainEntry.





(** ** The properties claimed, as definitions *)

(** The order the sorted output is claimed to follow: prices ascending,
    rooms without a price after every priced room. *)
Definition priceLeb (a b : Room) : bool :=
  match price a, price b with
  | Some pa, Some pb => pa <=? pb
  | Some _, None => true
  | None, None => true
  | None, Some _ => false
  end.

Definition priceOrder (a b : Room) : Prop := priceLeb a b = true.

(** The rooms of one price, [None] being the rooms without a price. *)
Definition hasPrice (p : option Z) (room : Room) : bool :=
  match price room, p with
  | Some x, Some y => x =? y
  | None, None => true
  | _, _ => false
  end.

(** The price ceiling: no price, or a price of at most [P]. *)
Definition withinCeiling (P : Z) (room : Room) : Prop :=
  match price room with
  | None => True
  | Some p => p <= P
  end.

(** Deduplication by [url] as the specification words it: each record is
    kept where it is first seen and every later record of the same [url]
    is dropped. *)
Definition otherUrl (key : string) (room : Room) : bool :=
  negb (String.eqb (url room) key).

Fixpoint firstSeen (records : list Room) : list Room :=
  match records with
  | [] => []
  | r :: rest => r :: filter (otherUrl (url r)) (firstSeen rest)
  end.

(** The page numbers [pageNum], [pageNum + 1], ... of [count] iterations. *)
Fixpoint pagesFrom (pageNum : Z) (count : nat) : list Z :=
  match count with
  | O => []
  | S count' => pageNum :: pagesFrom (pageNum + 1) count'
  end.

(** A [pages] option that is absent, [NaN], zero or positive. *)
Definition notNegative (v : option JS.number) : Prop :=
  match v with
  | Some (JS.Int z) => 0 <= z
  | _ => True
  end.

(** The closed set of room types. *)
Definition roomTypes : list string := ["single"; "shared"; "studio"; "apartment"].

(** The title, lower-cased, contains a keyword of the room type. *)
Definition titleMatches `{CaseMapping} (roomType : string) (room : Room) : Prop :=
  exists kw, In kw (getRoomTypeKeywords roomType) /\
             JS.includes (toLowerCase (title room)) kw = true.

(** What a scraper extracts from the page at [pageUrl]; nothing when the
    navigation rejects. *)
Definition pageRooms {Element : Type} `{Dom Element} (site : Site)
    (web : Web Element) (pageUrl : string) : list Room :=
  match web pageUrl with
  | Some document => extractListings site document
  | None => []
  end.

(** The query string of a page URL: the price filter of the site, under
    the name [key], when [maxPrice] is truthy, and the page number from
    page 2 on. *)
Definition queryString (key : string) (options : SearchOptions) (pageNum : Z)
  : string :=
  match JS.truthy (maxPrice options), pageNum >? 1 with
  | Some P, true => "?" ++ key ++ "=" ++ JS.showZ P ++ "&page=" ++ JS.showZ pageNum
  | Some P, false => "?" ++ key ++ "=" ++ JS.showZ P
  | None, true => "?page=" ++ JS.showZ pageNum
  | None, false => ""
  end.

(** The records extracted from the pages a run visited, page after page. *)
Definition crawled {Element : Type} `{Dom Element} `{CaseMapping} (site : Site)
    (web : Web Element) (options : SearchOptions) : list Room :=
  flat_map (pageRooms site web) (navigations (scrape site web options)).

(** ** Further properties, as definitions *)

Section Pages.

Context {Element : Type} `{Dom Element}.

(** The page [pageNum] of a crawl renders, offers a next page and, where
    an empty page would end the crawl, has listings: the loop goes on. *)
Definition continues (site : Site) (web : Web Element) (options : SearchOptions)
    (pageNum : Z) : Prop :=
  exists document,
    web (buildPageUrl site options pageNum) = Some document /\
    hasNextPage site document = true /\
    (stopsOnEmptyPage site = true -> extractListings site document <> []).

(** The page [pageNum] of a crawl ends it: the navigation rejects, or the
    page offers no next page, or it is empty where that ends the crawl. *)
Definition ends (site : Site) (web : Web Element) (options : SearchOptions)
    (pageNum : Z) : Prop :=
  match web (buildPageUrl site options pageNum) with
  | None => True
  | Some document =>
      hasNextPage site document = false \/
      (stopsOnEmptyPage site = true /\ extractListings site document = [])
  end.

(** The listings the cards stand for, in card order, before any
    deduplication. *)
Definition candidates (listing : Element -> option Room) (cards : list Element)
  : list Room :=
  flat_map (fun card => match listing card with
                        | Some room => [room]
                        | None => []
                        end) cards.

(** The candidate listings of a rendered page of each site. *)
Definition olxCandidates (document : Document Element) : list Room :=
  candidates olxListing (findCards document olxSelectors).

Definition otodomCandidates (document : Document Element) : list Room :=
  candidates otodomListing (findCards document otodomSelectors).

End Pages.

(** The rooms with a price. *)
Definition priced (room : Room) : bool :=
  match price room with
  | Some _ => true
  | None => false
  end.

(** ** A small concrete browser, for running the scrapers *)

Module Fixture.

(** An element with its tag, text and attributes, and what
    [querySelector] finds below it for each selector; it is its own
    container. *)
Inductive Node : Type :=
| node (tag : string) (text : string) (attrs : list (string * string))
       (below : list (string * Node)).

Fixpoint assoc {A : Type} (key : string) (table : list (string * A)) : option A :=
  match table with
  | [] => None
  | (k, v) :: rest => if String.eqb k key then Some v else assoc key rest
  end.

#[export] Instance nodeDom : Dom Node := {|
  querySelector := fun '(node _ _ _ below) selector => assoc selector below;
  closest := fun _ _ => None;
  textContent := fun '(node _ text _ _) => Some text;
  getAttribute := fun '(node _ _ attrs _) name => assoc name attrs;
  tagName := fun '(node tag _ _ _) => tag
|}.

(** Lower-casing of the ASCII letters only. *)
Fixpoint lowerAsciiString (s : string) : string :=
  match s with
  | EmptyString => ""
  | String c r => String (JS.lowerAscii c) (lowerAsciiString r)
  end.

#[export] Instance asciiCase : CaseMapping := lowerAsciiString.

Definition leaf (tag text : string) (attrs : list (string * string)) : Node :=
  node tag text attrs [].

(** An OLX card: link, title, price, place and thumbnail. *)
Definition olxCard (href heading cost place src : string) : Node :=
  node "DIV" (heading ++ cost ++ place) []
    [ ("a", leaf "A" heading [("href", href)]);
      ("h4, h6, [data-cy='ad-title']", leaf "H4" heading []);
      ("[data-testid=" ++ q "ad-price" ++ "], [data-cy=" ++ q "ad-price" ++ "]",
       leaf "P" cost []);
      ("[data-testid=" ++ q "location-date" ++ "], [data-cy=" ++ q "location-date" ++ "]",
       leaf "P" place []);
      ("img", leaf "IMG" "" [("src", src)]) ].

(** An Otodom card: link, title and thumbnail; the price is in the text. *)
Definition otodomCard (href heading text src : string) : Node :=
  node "LI" text []
    [ ("a", leaf "A" heading [("href", href)]);
      ("h3", leaf "H3" heading []);
      ("img", leaf "IMG" "" [("src", src)]) ].

(** A document: its cards under the selector that finds them, and the
    next-page control when there is one. *)
Definition page (cardSelector : string) (cards : list Node)
    (nextSelector : string) (next : option Node) : Document Node :=
  fun selector =>
    if String.eqb selector cardSelector then cards
    else if String.eqb selector nextSelector then
      match next with
      | Some button => [button]
      | None => []
      end
    else [].

Definition olxPage (cards : list Node) (next : option Node) : Document Node :=
  page ("[data-cy=" ++ q "l-card" ++ "]") cards
       ("[data-testid=" ++ q "pagination-forward" ++ "]") next.

Definition otodomPage (cards : list Node) (next : option Node) : Document Node :=
  page ("[data-cy=" ++ q "listing-item" ++ "]") cards
       ("[data-cy=" ++ q "pagination.next-page" ++ "]") next.

Definition nextButton : Node := leaf "A" "" [].
Definition disabledNextButton : Node := leaf "A" "" [("disabled", "")].

(** A web of numbered result pages: the page a URL names is read off its
    [page=] parameter (page 1 when there is none). *)
Definition served (pages : list (Document Node)) : Web Node :=
  fun pageUrl =>
    let number :=
      match find (fun n => JS.includes pageUrl ("page=" ++ JS.showZ (Z.of_nat n)))
                 (rev (seq 2 (List.length pages))) with
      | Some n => n
      | None => 1%nat
      end in
    nth_error pages (number - 1).

(** Two OLX result pages: a room at 1500 with a relative thumbnail and a
    room without title, price or place; then the first room again and a
    studio at 2500.  Both pages offer a next page; there is no third. *)
Definition olxDemo : Web Node :=
  served
    [ olxPage
        [ olxCard "/d/oferta/a.html" "  Pokój SINGLE " "1 500 zł"
                  "Warszawa, Wola - dzisiaj" "/img/a.jpg";
          olxCard "https://www.olx.pl/d/oferta/b.html" "" "" "" "" ]
        (Some nextButton);
      olxPage
        [ olxCard "/d/oferta/a.html" "Pokój (again)" "1 400 zł" "Warszawa" "";
          olxCard "/d/oferta/c.html" "Kawalerka studio" "2 500 zł"
                  "Warszawa, Mokotów - wczoraj" "https://img.example/c.jpg" ]
        (Some nextButton) ].

Definition olxRoomA : Room :=
  mkRoom "Pokój SINGLE" (Some 1500) "PLN" "Warszawa, Wola"
         "https://www.olx.pl/d/oferta/a.html" olx None (Some "/img/a.jpg").

Definition olxRoomB : Room :=
  mkRoom "Room listing" None "PLN" "Warszawa"
         "https://www.olx.pl/d/oferta/b.html" olx None None.

Definition olxRoomC : Room :=
  mkRoom "Kawalerka studio" (Some 2500) "PLN" "Warszawa, Mokotów"
         "https://www.olx.pl/d/oferta/c.html" olx None (Some "https://img.example/c.jpg").

(** One Otodom result page with a priced room and a bare one; its next
    page control is disabled. *)
Definition otodomDemo : Web Node :=
  served
    [ otodomPage
        [ otodomCard "/pl/oferta/pokoj-1" " Pokój przy metrze "
                     "Pokój przy metrze 1 200 zł Warszawa, Ursynów 12 m2" "/t/1.webp";
          otodomCard "/pl/oferta/pokoj-2" "" "Cena do uzgodnienia" "" ]
        (Some disabledNextButton) ].

Definition otodomRoom1 : Room :=
  mkRoom "Pokój przy metrze" (Some 1200) "PLN" "Warszawa, Ursynów"
         "https://www.otodom.pl/pl/oferta/pokoj-1" otodom None (Some "/t/1.webp").

Definition otodomRoom2 : Room :=
  mkRoom "Room in Warsaw" None "PLN" "Warszawa"
         "https://www.otodom.pl/pl/oferta/pokoj-2" otodom None None.

(** A site whose every page has one listing and offers a next page. *)
Definition endless : Web Node :=
  fun _ => Some (olxPage [olxCard "/d/oferta/a.html" "Pokój" "900 zł" "Warszawa" ""]
                         (Some nextButton)).

(** OLX pages of which the second offers no next page. *)
Definition olxFirstPage : Document Node :=
  olxPage [olxCard "/d/oferta/a.html" "Pokój" "900 zł" "Warszawa" ""] (Some nextButton).

Definition olxLastPage : Document Node :=
  olxPage [olxCard "/d/oferta/c.html" "Kawalerka" "2 500 zł" "Warszawa" ""] None.

Definition olxStopsAtTwo : Web Node :=
  served [olxFirstPage; olxLastPage; olxFirstPage].

(** An empty page that offers a next page. *)
Definition olxEmptyPage : Document Node := olxPage [] (Some nextButton).
Definition otodomEmptyPage : Document Node := otodomPage [] (Some nextButton).

Definition otodomFirstPage : Document Node :=
  otodomPage [otodomCard "/pl/oferta/pokoj-1" "Pokój" "Pokój 1 200 zł" ""]
             (Some nextButton).

Definition olxEmptyFirst : Web Node := served [olxEmptyPage; olxLastPage].

Definition otodomEmptySecond : Web Node :=
  served [otodomFirstPage; otodomEmptyPage; otodomFirstPage].

(** Browsers over the two OLX pages: one that does not start and one whose
    close rejects. *)
Definition neverStarts : Browser Node := mkBrowser false olxDemo true.
Definition closeRejects : Browser Node := mkBrowser true olxDemo false.

End Fixture.

Example regex_ex :
  JS.matchDigits (JS.removeWs ("od 1" ++ JS.utf8 [194; 160]%nat ++ "500 PLN")) = Some "1500"
  /\ JS.parseInt "1500" = 1500
  /\ JS.matchPriceZl "3 pokoje, 2 300 zł/mc" = Some "2 300 "
  /\ JS.matchPriceZl "do negocjacji" = None
  /\ JS.matchDistrict true "ul. Prosta, WARSZAWA,  Śródmieście, mazowieckie"
     = Some "Śródmieście"
  /\ JS.matchDistrict false "Pokój Warszawa Wola 900 zł" = Some "Wola"
  /\ JS.trim ("  Pokój  " ++ JS.utf8 [226; 128; 175]%nat) = "Pokój"
  /\ JS.splitHead " - " "Warszawa, Wola - dzisiaj" = "Warszawa, Wola".
Proof. repeat split; reflexivity. Qed.

Example showZ_ex : JS.showZ 2500 = "2500" /\ JS.showZ 0 = "0" /\ JS.showZ (-3) = "-3".
Proof. repeat split; reflexivity. Qed.

(** * Facts *)

Lemma filter_none {A : Type} (f : A -> bool) (l : list A) :
  (forall a, In a l -> f a = false) -> filter f l = [].
Proof.
  induction l as [|x l IH]; intros Hf; [reflexivity|].
  cbn. rewrite (Hf x (or_introl eq_refl)). apply IH.
  intros a Ha. apply Hf. right. exact Ha.
Qed.

Lemma filter_head {A : Type} (f : A -> bool) (x : A) (l : list A) :
  filter f (x :: l) = if f x then x :: filter f l else filter f l.
Proof. reflexivity. Qed.

Lemma StronglySorted_app_parts {A : Type} (R : A -> A -> Prop) (l r : list A) :
  StronglySorted R (List.app l r) ->
  StronglySorted R l /\ StronglySorted R r /\
  (forall a b, In a l -> In b r -> R a b).
Proof.
  induction l as [|x l IH]; cbn; intros Hs.
  - repeat split; [constructor|exact Hs|contradiction].
  - apply StronglySorted_inv in Hs as [Hs Hx].
    destruct (IH Hs) as (Hl & Hr & Hlr).
    apply Forall_app in Hx as [Hxl Hxr].
    repeat split; [constructor; assumption|exact Hr|].
    intros a b [<-|Ha] Hb.
    + exact (proj1 (Forall_forall _ _) Hxr b Hb).
    + apply Hlr; assumption.
Qed.

(** ** The merge sort, for a comparator that decides a total preorder *)

Section ArraySortFacts.

Context {A : Type} (comparator : A -> A -> Z) (leb : A -> A -> bool).

(** The right element is moved ahead exactly when the left one is not
    below or equal to it. *)
Hypothesis moves_ahead :
  forall r l, (comparator r l <? 0) = negb (leb l r).
Hypothesis leb_total : forall a b, leb a b = true \/ leb b a = true.
Hypothesis leb_trans :
  forall a b c, leb a b = true -> leb b c = true -> leb a c = true.

Let le (a b : A) : Prop := leb a b = true.
Let ordered : list A -> Prop := StronglySorted le.

Lemma merge_nil_r (l : list A) : merge comparator l [] = l.
Proof. destruct l; reflexivity. Qed.

Lemma merge_cons (l : A) (ls : list A) (r : A) (rs : list A) :
  merge comparator (l :: ls) (r :: rs) =
  if leb l r then l :: merge comparator ls (r :: rs)
  else r :: merge comparator (l :: ls) rs.
Proof.
  cbn [merge]. rewrite moves_ahead. destruct (leb l r); reflexivity.
Qed.

Lemma merge_Permutation (l r : list A) :
  Permutation (merge comparator l r) (List.app l r).
Proof.
  revert r. induction l as [|x l IHl]; intro r; [reflexivity|].
  induction r as [|y r IHr].
  - rewrite merge_nil_r, app_nil_r. reflexivity.
  - rewrite merge_cons. destruct (leb x y).
    + cbn. constructor. apply IHl.
    + etransitivity; [constructor; apply IHr|].
      apply (Permutation_middle (x :: l) r y).
Qed.

Lemma merge_Forall (P : A -> Prop) (l r : list A) :
  Forall P l -> Forall P r -> Forall P (merge comparator l r).
Proof.
  intros Hl Hr.
  apply (Permutation_Forall (Permutation_sym (merge_Permutation l r))).
  apply Forall_app; split; assumption.
Qed.

Lemma merge_ordered (l r : list A) :
  ordered l -> ordered r -> ordered (merge comparator l r).
Proof.
  revert r. induction l as [|x l IHl]; intros r Hl Hr; [exact Hr|].
  induction r as [|y r IHr]; [rewrite merge_nil_r; exact Hl|].
  apply StronglySorted_inv in Hl as [Hl Hx].
  pose proof (StronglySorted_inv Hr) as [Hr' Hy].
  rewrite merge_cons. destruct (leb x y) eqn:Hxy.
  - constructor; [apply IHl; assumption|].
    apply merge_Forall; [exact Hx|].
    constructor; [exact Hxy|].
    eapply Forall_impl; [|exact Hy]. intros b Hb. exact (leb_trans _ _ _ Hxy Hb).
  - assert (Hyx : le y x) by (destruct (leb_total x y); [congruence|assumption]).
    constructor; [apply IHr; assumption|].
    apply merge_Forall; [|exact Hy].
    constructor; [exact Hyx|].
    eapply Forall_impl; [|exact Hx]. intros b Hb. exact (leb_trans _ _ _ Hyx Hb).
Qed.

(** Elements that the order does not tell apart keep their order. *)
Lemma merge_filter (same : A -> bool) (l r : list A) :
  (forall a b, same a = true -> same b = true -> le a b) ->
  ordered l ->
  filter same (merge comparator l r) = List.app (filter same l) (filter same r).
Proof.
  intros Hsame. revert r. induction l as [|x l IHl]; intros r Hl; [reflexivity|].
  induction r as [|y r IHr]; [rewrite merge_nil_r, app_nil_r; reflexivity|].
  pose proof (StronglySorted_inv Hl) as [Hl' Hx].
  rewrite merge_cons. destruct (leb x y) eqn:Hxy.
  - cbn [filter]. rewrite (IHl _ Hl'). destruct (same x); reflexivity.
  - rewrite (filter_head same y (merge comparator (x :: l) r)).
    rewrite (filter_head same y r), IHr.
    destruct (same y) eqn:Hy; [|reflexivity].
    assert (Hnone : filter same (x :: l) = []).
    { apply filter_none. intros b Hb.
      destruct (same b) eqn:Hsb; [exfalso|reflexivity].
      assert (Hxb : le x b).
      { destruct Hb as [<-|Hb].
        - destruct (leb_total x x); assumption.
        - exact (proj1 (Forall_forall _ _) Hx b Hb). }
      pose proof (leb_trans _ _ _ Hxb (Hsame _ _ Hsb Hy)). congruence. }
    rewrite Hnone. reflexivity.
Qed.

(** Two runs already in order are put one after the other. *)
Lemma merge_app (l r : list A) :
  (forall a b, In a l -> In b r -> le a b) ->
  merge comparator l r = List.app l r.
Proof.
  revert r. induction l as [|x l IHl]; intros r Hlr; [reflexivity|].
  destruct r as [|y r]; [rewrite merge_nil_r, app_nil_r; reflexivity|].
  rewrite merge_cons, (Hlr x y (or_introl eq_refl) (or_introl eq_refl)).
  cbn. f_equal. apply IHl. intros a b Ha Hb. apply Hlr; [right|]; assumption.
Qed.

Lemma runs_ind (P : list (list A) -> Prop) :
  P [] -> (forall a, P [a]) ->
  (forall a b rest, P rest -> P (a :: b :: rest)) ->
  forall runs, P runs.
Proof.
  intros Hnil Hone Hstep.
  fix IH 1. intros [|a [|b rest]]; [exact Hnil|apply Hone|].
  apply Hstep, IH.
Qed.

Lemma mergePairs_ordered (runs : list (list A)) :
  Forall ordered runs -> Forall ordered (mergePairs comparator runs).
Proof.
  induction runs as [| |a b rest IH] using runs_ind; intros Hruns; try exact Hruns.
  inversion_clear Hruns as [|? ? Ha Hrest]. inversion_clear Hrest as [|? ? Hb Hrest'].
  cbn. constructor; [apply merge_ordered; assumption|apply IH; assumption].
Qed.

Lemma mergePairs_Permutation (runs : list (list A)) :
  Permutation (List.concat (mergePairs comparator runs)) (List.concat runs).
Proof.
  induction runs as [| |a b rest IH] using runs_ind; try reflexivity.
  cbn. rewrite app_assoc. apply Permutation_app; [apply merge_Permutation|exact IH].
Qed.

Lemma mergePairs_filter (same : A -> bool) (runs : list (list A)) :
  (forall a b, same a = true -> same b = true -> le a b) ->
  Forall ordered runs ->
  filter same (List.concat (mergePairs comparator runs)) =
  filter same (List.concat runs).
Proof.
  intros Hsame.
  induction runs as [| |a b rest IH] using runs_ind; intros Hruns; try reflexivity.
  inversion_clear Hruns as [|? ? Ha Hrest]. inversion_clear Hrest as [|? ? Hb Hrest'].
  cbn. rewrite !filter_app, (merge_filter same a b Hsame Ha), (IH Hrest').
  rewrite app_assoc. reflexivity.
Qed.

Lemma mergePairs_concat (runs : list (list A)) :
  ordered (List.concat runs) ->
  List.concat (mergePairs comparator runs) = List.concat runs.
Proof.
  induction runs as [| |a b rest IH] using runs_ind; intros Hruns; try reflexivity.
  cbn in *. rewrite app_assoc in Hruns.
  apply StronglySorted_app_parts in Hruns as (Hab & Hrest & _).
  apply StronglySorted_app_parts in Hab as (_ & _ & Hab).
  rewrite app_assoc. f_equal; [apply merge_app; exact Hab|apply IH; exact Hrest].
Qed.

Lemma mergePairs_length (runs : list (list A)) :
  (List.length (mergePairs comparator runs) <= List.length runs)%nat /\
  (2 <= List.length runs ->
   List.length (mergePairs comparator runs) < List.length runs)%nat.
Proof.
  induction runs as [| |a b rest IH] using runs_ind; cbn; lia.
Qed.

Lemma mergePasses_one_run (passes : nat) (runs : list (list A)) :
  (List.length runs <= S passes)%nat ->
  (List.length (mergePasses comparator passes runs) <= 1)%nat.
Proof.
  revert runs. induction passes as [|passes IH]; intros runs Hlen.
  - destruct runs; exact Hlen.
  - destruct runs as [|a [|b rest]]; cbn [mergePasses]; cbn; try lia.
    apply IH.
    pose proof (proj2 (mergePairs_length (a :: b :: rest))) as Hlt.
    cbn in Hlt, Hlen |- *. lia.
Qed.

Lemma mergePasses_ordered (passes : nat) (runs : list (list A)) :
  Forall ordered runs -> Forall ordered (mergePasses comparator passes runs).
Proof.
  revert runs. induction passes as [|passes IH]; intros runs Hruns.
  - destruct runs; exact Hruns.
  - destruct runs as [|a [|b rest]]; try exact Hruns.
    apply IH, mergePairs_ordered, Hruns.
Qed.

Lemma mergePasses_Permutation (passes : nat) (runs : list (list A)) :
  Permutation (List.concat (mergePasses comparator passes runs)) (List.concat runs).
Proof.
  revert runs. induction passes as [|passes IH]; intros runs.
  - destruct runs; reflexivity.
  - destruct runs as [|a [|b rest]]; try reflexivity.
    etransitivity; [apply IH|apply mergePairs_Permutation].
Qed.

Lemma mergePasses_filter (same : A -> bool) (passes : nat) (runs : list (list A)) :
  (forall a b, same a = true -> same b = true -> le a b) ->
  Forall ordered runs ->
  filter same (List.concat (mergePasses comparator passes runs)) =
  filter same (List.concat runs).
Proof.
  intros Hsame. revert runs. induction passes as [|passes IH]; intros runs Hruns.
  - destruct runs; reflexivity.
  - destruct runs as [|a [|b rest]]; try reflexivity.
    cbn [mergePasses].
    rewrite (IH _ (mergePairs_ordered _ Hruns)).
    apply mergePairs_filter; assumption.
Qed.

Lemma mergePasses_concat (passes : nat) (runs : list (list A)) :
  ordered (List.concat runs) ->
  List.concat (mergePasses comparator passes runs) = List.concat runs.
Proof.
  revert runs. induction passes as [|passes IH]; intros runs Hruns.
  - destruct runs; reflexivity.
  - destruct runs as [|a [|b rest]]; try reflexivity.
    cbn [mergePasses].
    pose proof (mergePairs_concat _ Hruns) as Hsame.
    rewrite IH; [exact Hsame|]. rewrite Hsame. exact Hruns.
Qed.

Lemma singletons_ordered (array : list A) :
  Forall ordered (map (fun x => [x]) array).
Proof.
  induction array; constructor; [repeat constructor|assumption].
Qed.

Lemma singletons_concat (array : list A) :
  List.concat (map (fun x => [x]) array) = array.
Proof.
  induction array as [|x array IH]; [reflexivity|]. cbn. f_equal. exact IH.
Qed.

Lemma sort_ordered (array : list A) : ordered (sort comparator array).
Proof.
  unfold sort.
  pose proof (mergePasses_ordered (List.length array) _ (singletons_ordered array)) as Hord.
  pose proof (mergePasses_one_run (List.length array) (map (fun x => [x]) array)) as Hone.
  rewrite length_map in Hone. specialize (Hone (Nat.le_succ_diag_r _)).
  destruct (mergePasses comparator _ _) as [|run [|? ?]]; cbn in Hone |- *; try lia.
  - constructor.
  - rewrite app_nil_r. inversion Hord; assumption.
Qed.

Lemma sort_Permutation (array : list A) :
  Permutation (sort comparator array) array.
Proof.
  unfold sort. etransitivity; [apply mergePasses_Permutation|].
  rewrite singletons_concat. reflexivity.
Qed.

Lemma sort_stable (same : A -> bool) (array : list A) :
  (forall a b, same a = true -> same b = true -> le a b) ->
  filter same (sort comparator array) = filter same array.
Proof.
  intros Hsame. unfold sort.
  rewrite (mergePasses_filter same _ _ Hsame (singletons_ordered array)).
  rewrite singletons_concat. reflexivity.
Qed.

Lemma sort_of_ordered (array : list A) :
  ordered array -> sort comparator array = array.
Proof.
  intros Hord. unfold sort.
  rewrite mergePasses_concat; rewrite singletons_concat; [reflexivity|exact Hord].
Qed.

(** Order and stability leave no choice: two ordered arrangements with the
    same elements of each class, in the same order, are the same list. *)
Lemma ordered_stable_unique (out1 out2 : list A) :
  ordered out1 -> ordered out2 ->
  (forall x, filter (fun y => leb x y && leb y x) out1
             = filter (fun y => leb x y && leb y x) out2) ->
  out1 = out2.
Proof.
  assert (Hrefl : forall a, leb a a = true)
    by (intro a; destruct (leb_total a a); assumption).
  assert (Hhead : forall h t, ordered (h :: t) -> forall a, In a (h :: t) -> le h a).
  { intros h t Hord a [<-|Ha]; [apply Hrefl|].
    apply StronglySorted_inv in Hord as [_ Hh].
    exact (proj1 (Forall_forall _ _) Hh a Ha). }
  revert out2. induction out1 as [|h1 t1 IH]; intros [|h2 t2] H1 H2 Hcls.
  - reflexivity.
  - specialize (Hcls h2). cbn in Hcls. rewrite Hrefl in Hcls. discriminate.
  - specialize (Hcls h1). cbn in Hcls. rewrite Hrefl in Hcls. discriminate.
  - assert (H21 : le h2 h1).
    { apply (Hhead h2 t2 H2). pose proof (Hcls h1) as Hc.
      rewrite (filter_head _ h1 t1), Hrefl in Hc. cbn [andb] in Hc.
      assert (Hin : In h1 (filter (fun y => leb h1 y && leb y h1) (h2 :: t2)))
        by (rewrite <- Hc; left; reflexivity).
      apply filter_In in Hin. tauto. }
    assert (H12 : le h1 h2).
    { apply (Hhead h1 t1 H1). pose proof (Hcls h2) as Hc.
      rewrite (filter_head _ h2 t2), Hrefl in Hc. cbn [andb] in Hc.
      assert (Hin : In h2 (filter (fun y => leb h2 y && leb y h2) (h1 :: t1)))
        by (rewrite Hc; left; reflexivity).
      apply filter_In in Hin. tauto. }
    assert (Heq : h1 = h2).
    { pose proof (Hcls h1) as Hc.
      rewrite (filter_head _ h1 t1), (filter_head _ h2 t2), Hrefl in Hc.
      unfold le in H12, H21. rewrite H12, H21 in Hc. cbn [andb] in Hc.
      congruence. }
    subst h2. f_equal.
    apply StronglySorted_inv in H1 as [H1 _].
    apply StronglySorted_inv in H2 as [H2 _].
    apply IH; [exact H1|exact H2|].
    intros x. specialize (Hcls x).
    rewrite (filter_head _ h1 t1), (filter_head _ h1 t2) in Hcls.
    destruct (leb x h1 && leb h1 x); congruence.
Qed.

End ArraySortFacts.

(** ** The price sort of [main] *)

Lemma compareRooms_moves_ahead (r l : Room) :
  (compareRooms r l <? 0) = negb (priceLeb l r).
Proof.
  unfold compareRooms, priceLeb.
  destruct (price r) as [pr|], (price l) as [pl|]; try reflexivity.
  destruct (Z.ltb_spec (pr - pl) 0), (Z.leb_spec pl pr); cbn; lia.
Qed.

Lemma priceLeb_total (a b : Room) : priceLeb a b = true \/ priceLeb b a = true.
Proof.
  unfold priceLeb. destruct (price a) as [pa|], (price b) as [pb|]; auto.
  destruct (Z.leb_spec pa pb); [left; reflexivity|right; apply Z.leb_le; lia].
Qed.

Lemma priceLeb_trans (a b c : Room) :
  priceLeb a b = true -> priceLeb b c = true -> priceLeb a c = true.
Proof.
  unfold priceLeb.
  destruct (price a) as [pa|], (price b) as [pb|], (price c) as [pc|];
    try congruence.
  rewrite !Z.leb_le. lia.
Qed.

Lemma hasPrice_priceLeb (p : option Z) (a b : Room) :
  hasPrice p a = true -> hasPrice p b = true -> priceLeb a b = true.
Proof.
  unfold hasPrice, priceLeb.
  destruct (price a) as [pa|], (price b) as [pb|], p as [x|]; try congruence.
  rewrite !Z.eqb_eq, Z.leb_le. lia.
Qed.

Lemma sortRooms_ordered (rooms : list Room) :
  StronglySorted priceOrder (sortRooms rooms).
Proof.
  apply (sort_ordered compareRooms priceLeb compareRooms_moves_ahead
           priceLeb_total priceLeb_trans).
Qed.

Lemma sortRooms_keeps_each_price (rooms : list Room) (p : option Z) :
  filter (hasPrice p) (sortRooms rooms) = filter (hasPrice p) rooms.
Proof.
  apply (sort_stable compareRooms priceLeb compareRooms_moves_ahead
           priceLeb_total priceLeb_trans).
  apply hasPrice_priceLeb.
Qed.

Lemma hasPrice_class (x y : Room) :
  priceLeb x y && priceLeb y x = hasPrice (price x) y.
Proof.
  unfold priceLeb, hasPrice.
  destruct (price x) as [px|], (price y) as [py|]; try reflexivity.
  destruct (Z.leb_spec px py), (Z.leb_spec py px), (Z.eqb_spec py px);
    cbn; try reflexivity; lia.
Qed.

(** The sorted output is the only arrangement of the rooms that is in
    [priceOrder] and keeps the rooms of each price in their input order:
    any stable sort that puts prices first and ascending returns it. *)
Lemma sortRooms_unique (rooms out : list Room) :
  StronglySorted priceOrder out ->
  (forall p : option Z, filter (hasPrice p) out = filter (hasPrice p) rooms) ->
  out = sortRooms rooms.
Proof.
  intros Hord Hstable.
  apply (ordered_stable_unique priceLeb priceLeb_total);
    [exact Hord|apply sortRooms_ordered|].
  intros x.
  rewrite (filter_ext _ (hasPrice (price x)) (hasPrice_class x) out).
  rewrite (filter_ext _ (hasPrice (price x)) (hasPrice_class x) (sortRooms rooms)).
  rewrite sortRooms_keeps_each_price. apply Hstable.
Qed.

(** C2. For every list of rooms, the sorted output has its prices in
    non-decreasing order with the rooms without a price after every priced
    room ([priceOrder] holds between every earlier and every later room),
    it holds the same rooms, the rooms of each price, and those without a
    price, stand in their input order, and sorting the output again
    changes nothing. *)
Theorem sortRooms_nulls_last_stable (rooms : list Room) :
  StronglySorted priceOrder (sortRooms rooms) /\
  Permutation (sortRooms rooms) rooms /\
  (forall p : option Z,
     filter (hasPrice p) (sortRooms rooms) = filter (hasPrice p) rooms) /\
  sortRooms (sortRooms rooms) = sortRooms rooms.
Proof.
  split; [apply sortRooms_ordered|].
  split; [apply (sort_Permutation compareRooms priceLeb compareRooms_moves_ahead)|].
  split; [apply sortRooms_keeps_each_price|].
  apply (sort_of_ordered compareRooms priceLeb compareRooms_moves_ahead).
  apply sortRooms_ordered.
Qed.

(** ** Deduplication by [url] *)

Lemma filter_swap {A : Type} (f g : A -> bool) (l : list A) :
  filter f (filter g l) = filter g (filter f l).
Proof.
  induction l as [|x l IH]; [reflexivity|]. cbn.
  destruct (f x) eqn:Hf, (g x) eqn:Hg; cbn; rewrite ?Hf, ?Hg, IH; reflexivity.
Qed.

Lemma filter_twice {A : Type} (f : A -> bool) (l : list A) :
  filter f (filter f l) = filter f l.
Proof.
  induction l as [|x l IH]; [reflexivity|]. cbn.
  destruct (f x) eqn:Hf; cbn; rewrite ?Hf, IH; reflexivity.
Qed.

Lemma filter_all {A : Type} (f : A -> bool) (l : list A) :
  (forall a, In a l -> f a = true) -> filter f l = l.
Proof.
  induction l as [|x l IH]; intros Hf; [reflexivity|].
  cbn. rewrite (Hf x (or_introl eq_refl)). f_equal. apply IH.
  intros a Ha. apply Hf. right. exact Ha.
Qed.

Lemma NoDup_map_filter {A B : Type} (g : A -> B) (f : A -> bool) (l : list A) :
  NoDup (map g l) -> NoDup (map g (filter f l)).
Proof.
  induction l as [|x l IH]; cbn; intros Hnd; [constructor|].
  inversion_clear Hnd as [|? ? Hx Hl].
  destruct (f x); [|apply IH; exact Hl].
  cbn. constructor; [|apply IH; exact Hl].
  intro Hin. apply Hx. apply in_map_iff in Hin as (y & Hy & Hyin).
  apply in_map_iff. exists y. split; [exact Hy|].
  apply filter_In in Hyin. tauto.
Qed.

Lemma otherUrl_false (key : string) (room : Room) :
  otherUrl key room = false <-> url room = key.
Proof.
  unfold otherUrl. rewrite negb_false_iff. apply String.eqb_eq.
Qed.

Lemma otherUrl_true (key : string) (room : Room) :
  otherUrl key room = true <-> url room <> key.
Proof.
  unfold otherUrl. rewrite negb_true_iff. apply String.eqb_neq.
Qed.

Lemma seen_iff (seen : list Room) (room : Room) :
  existsb (fun r => String.eqb (url r) (url room)) seen = true <->
  In (url room) (map url seen).
Proof.
  rewrite existsb_exists, in_map_iff.
  split.
  - intros (r & Hin & Heq). exists r. apply String.eqb_eq in Heq. tauto.
  - intros (r & Heq & Hin). exists r. split; [exact Hin|].
    apply String.eqb_eq. exact Heq.
Qed.

Lemma firstSeen_In (records : list Room) (room : Room) :
  In room (firstSeen records) -> In room records.
Proof.
  induction records as [|r rest IH]; cbn; [tauto|].
  intros [->|Hin]; [left; reflexivity|].
  right. apply IH. apply filter_In in Hin. tauto.
Qed.

Lemma firstSeen_NoDup (records : list Room) :
  NoDup (map url (firstSeen records)).
Proof.
  induction records as [|r rest IH]; cbn; constructor.
  - intro Hin. apply in_map_iff in Hin as (x & Hx & Hxin).
    apply filter_In in Hxin as [_ Hother].
    apply otherUrl_true in Hother. contradiction.
  - apply NoDup_map_filter. exact IH.
Qed.

Lemma firstSeen_fixed (records : list Room) :
  NoDup (map url records) -> firstSeen records = records.
Proof.
  induction records as [|r rest IH]; cbn; intros Hnd; [reflexivity|].
  inversion_clear Hnd as [|? ? Hr Hrest].
  rewrite (IH Hrest). f_equal. apply filter_all.
  intros a Ha. apply otherUrl_true. intro Heq. apply Hr.
  rewrite <- Heq. apply in_map. exact Ha.
Qed.

Lemma firstSeen_filter (key : string) (records : list Room) :
  filter (otherUrl key) (firstSeen records) =
  firstSeen (filter (otherUrl key) records).
Proof.
  induction records as [|r rest IH]; [reflexivity|].
  cbn [firstSeen filter]. destruct (otherUrl key r) eqn:Hr.
  - cbn [firstSeen]. f_equal. rewrite filter_swap, IH. reflexivity.
  - apply otherUrl_false in Hr. rewrite Hr, filter_twice. exact IH.
Qed.

(** A record whose [url] was seen before changes nothing. *)
Lemma firstSeen_seen (before after : list Room) (room : Room) :
  In (url room) (map url before) ->
  firstSeen (List.app before (room :: after)) = firstSeen (List.app before after).
Proof.
  induction before as [|b before IH]; cbn; [tauto|].
  intros Hin. f_equal.
  destruct (String.eqb_spec (url b) (url room)) as [Heq|Hneq].
  - rewrite !firstSeen_filter, !filter_app. cbn [filter].
    rewrite (proj2 (otherUrl_false (url b) room)) by congruence. reflexivity.
  - rewrite IH; [reflexivity|]. destruct Hin; [contradiction|assumption].
Qed.

Lemma addUnique_firstSeen (rooms allRooms : list Room) :
  NoDup (map url allRooms) ->
  addUnique allRooms rooms = firstSeen (List.app allRooms rooms).
Proof.
  revert allRooms. induction rooms as [|room rooms IH]; intros allRooms Hnd.
  - cbn. rewrite app_nil_r. symmetry. apply firstSeen_fixed. exact Hnd.
  - cbn [addUnique fold_left]. fold (addUnique (pushUnique allRooms room) rooms).
    unfold pushUnique.
    destruct (existsb _ allRooms) eqn:Hseen.
    + rewrite (IH _ Hnd). symmetry. apply firstSeen_seen.
      apply seen_iff. exact Hseen.
    + rewrite IH, <- app_assoc; [reflexivity|].
      rewrite map_app. cbn.
      apply NoDup_app; [exact Hnd|repeat constructor; intros []|].
      intros key Hin [<-|[]]. apply seen_iff in Hin. congruence.
Qed.

(** ** The crawl loop *)

Section ScraperFacts.

Context {Element : Type} `{Dom Element} `{CaseMapping}.

Lemma crawl_step (site : Site) (web : Web Element) (options : SearchOptions)
    (K pageNum : Z) (allRooms : list Room) :
  crawl site web options K pageNum allRooms =
  if pageNum <=? K then
    let pageUrl := buildPageUrl site options pageNum in
    match web pageUrl with
    | None => {| navigations := [pageUrl]; resolved := None |}
    | Some document =>
        let rooms := extractListings site document in
        let allRooms' := addUnique allRooms rooms in
        if negb (hasNextPage site document)
           || (stopsOnEmptyPage site && (Z.of_nat (List.length rooms) =? 0))
        then {| navigations := [pageUrl]; resolved := Some allRooms' |}
        else visit pageUrl (crawl site web options K (pageNum + 1) allRooms')
    end
  else {| navigations := []; resolved := Some allRooms |}.
Proof.
  simp crawl. destruct (Z_le_gt_dec pageNum K) as [Hle|Hgt]; cbn.
  - rewrite (proj2 (Z.leb_le _ _) Hle). destruct (web _); reflexivity.
  - rewrite (proj2 (Z.leb_gt _ _)) by lia. reflexivity.
Qed.

Lemma addUnique_app (allRooms first second : list Room) :
  addUnique allRooms (List.app first second) =
  addUnique (addUnique allRooms first) second.
Proof. apply fold_left_app. Qed.

(** What a run of the loop from [pageNum] does: it navigates to
    consecutive pages, at most as many as are left in the budget and at
    least one when one is left, and a run that resolves has accumulated
    the unseen rooms of the pages it visited, in order. *)
Lemma crawl_run (site : Site) (web : Web Element) (options : SearchOptions)
    (K : Z) (n : nat) :
  forall (pageNum : Z) (allRooms : list Room),
    (Z.to_nat (K + 1 - pageNum) <= n)%nat ->
    let run := crawl site web options K pageNum allRooms in
    (List.length (navigations run) <= Z.to_nat (K + 1 - pageNum))%nat /\
    navigations run =
      map (buildPageUrl site options)
          (pagesFrom pageNum (List.length (navigations run))) /\
    (pageNum <= K -> navigations run <> []) /\
    (forall rooms,
       resolved run = Some rooms ->
       rooms = addUnique allRooms (flat_map (pageRooms site web) (navigations run))).
Proof.
  induction n as [|n IH]; intros pageNum allRooms Hn; cbv zeta;
    rewrite crawl_step; destruct (Z.leb_spec pageNum K) as [Hle|Hgt];
    try lia;
    try (cbn [navigations resolved List.length map pagesFrom flat_map];
         repeat split; [lia|lia|intros rooms [= <-]; reflexivity]).
  cbv zeta. destruct (web (buildPageUrl site options pageNum)) as [document|] eqn:Hweb.
  - assert (Hpage : pageRooms site web (buildPageUrl site options pageNum)
                    = extractListings site document)
      by (unfold pageRooms; rewrite Hweb; reflexivity).
    destruct (negb (hasNextPage site document) || _).
    + cbn [navigations resolved List.length map pagesFrom flat_map].
      rewrite Hpage, app_nil_r.
      repeat split; [lia|discriminate|intros rooms [= <-]; reflexivity].
    + specialize (IH (pageNum + 1)
                     (addUnique allRooms (extractListings site document))).
      cbv zeta in IH. destruct IH as (Hlen & Hnav & _ & Hres); [lia|].
      cbn [visit navigations resolved List.length map pagesFrom flat_map].
      repeat split.
      * lia.
      * f_equal. exact Hnav.
      * discriminate.
      * intros rooms Hrooms. rewrite Hpage, addUnique_app. apply Hres, Hrooms.
  - cbn [navigations resolved List.length map pagesFrom flat_map].
    repeat split; [lia|discriminate|discriminate].
Qed.

Lemma crawl_resolves (site : Site) (web : Web Element) (options : SearchOptions)
    (K : Z) (n : nat) :
  (forall pageUrl, web pageUrl <> None) ->
  forall (pageNum : Z) (allRooms : list Room),
    (Z.to_nat (K + 1 - pageNum) <= n)%nat ->
    resolved (crawl site web options K pageNum allRooms) <> None.
Proof.
  intros Hweb. induction n as [|n IH]; intros pageNum allRooms Hn;
    rewrite crawl_step; destruct (Z.leb_spec pageNum K) as [Hle|Hgt];
    try lia; try discriminate.
  cbv zeta. specialize (Hweb (buildPageUrl site options pageNum)).
  destruct (web _) as [document|]; [|contradiction].
  destruct (negb (hasNextPage site document) || _); [discriminate|].
  cbn [visit resolved]. apply IH. lia.
Qed.

(** When every page offers a next page (and has listings, where an empty
    page would end the crawl), the budget alone ends the loop. *)
Lemma crawl_exhausts_budget (site : Site) (web : Web Element)
    (options : SearchOptions) (K : Z) (n : nat) :
  (forall pageUrl, exists document,
      web pageUrl = Some document /\ hasNextPage site document = true /\
      (stopsOnEmptyPage site = true -> extractListings site document <> [])) ->
  forall (pageNum : Z) (allRooms : list Room),
    (Z.to_nat (K + 1 - pageNum) <= n)%nat ->
    List.length (navigations (crawl site web options K pageNum allRooms))
    = Z.to_nat (K + 1 - pageNum).
Proof.
  intros Hweb. induction n as [|n IH]; intros pageNum allRooms Hn;
    rewrite crawl_step; destruct (Z.leb_spec pageNum K) as [Hle|Hgt];
    try lia; try (cbn; lia).
  cbv zeta.
  destruct (Hweb (buildPageUrl site options pageNum)) as (document & -> & -> & Hrooms).
  assert (Hgo : stopsOnEmptyPage site
                && (Z.of_nat (List.length (extractListings site document)) =? 0)
                = false).
  { destruct (stopsOnEmptyPage site); [|reflexivity].
    destruct (extractListings site document); [exfalso; apply Hrooms; reflexivity|].
    reflexivity. }
  rewrite Hgo. cbn [negb orb visit navigations List.length].
  rewrite IH by lia. lia.
Qed.

Lemma applyFilters_In (options : SearchOptions) (allRooms : list Room) (room : Room) :
  In room (applyFilters options allRooms) -> In room allRooms.
Proof.
  unfold applyFilters.
  destruct (JS.truthy (maxPrice options)), (JS.truthyStr (roomType options));
    rewrite ?filter_In; tauto.
Qed.

Lemma applyFilters_NoDup (options : SearchOptions) (allRooms : list Room) :
  NoDup (map url allRooms) -> NoDup (map url (applyFilters options allRooms)).
Proof.
  intros Hnd. unfold applyFilters.
  destruct (JS.truthy (maxPrice options)), (JS.truthyStr (roomType options));
    repeat apply NoDup_map_filter; exact Hnd.
Qed.

(** A run that resolves returns the filtered first-seen records of the
    pages it visited. *)
Lemma scrape_resolved (site : Site) (web : Web Element) (options : SearchOptions)
    (rooms : list Room) :
  resolved (scrape site web options) = Some rooms ->
  rooms = applyFilters options (firstSeen (crawled site web options)).
Proof.
  unfold crawled, scrape. cbn [resolved navigations].
  pose proof (crawl_run site web options (pagesToScrape options) _ 1 []
                (Nat.le_refl _)) as (_ & _ & _ & Hres).
  destruct (resolved (crawl _ _ _ _ _ _)) as [allRooms|]; [|discriminate].
  intros [= <-]. f_equal.
  rewrite (Hres allRooms eq_refl).
  apply (addUnique_firstSeen _ []). constructor.
Qed.

Lemma scrape_navigations (site : Site) (web : Web Element) (options : SearchOptions) :
  let run := scrape site web options in
  (List.length (navigations run) <= Z.to_nat (pagesToScrape options))%nat /\
  navigations run =
    map (buildPageUrl site options) (pagesFrom 1 (List.length (navigations run))) /\
  (1 <= pagesToScrape options -> navigations run <> []).
Proof.
  cbv zeta. unfold scrape. cbn [navigations].
  pose proof (crawl_run site web options (pagesToScrape options) _ 1 []
                (Nat.le_refl _)) as (Hlen & Hnav & Hfirst & _).
  replace (pagesToScrape options + 1 - 1) with (pagesToScrape options) in Hlen by lia.
  auto.
Qed.

(** Every returned room was extracted from a page the run visited. *)
Lemma scrape_origin (site : Site) (web : Web Element) (options : SearchOptions)
    (rooms : list Room) (room : Room) :
  resolved (scrape site web options) = Some rooms ->
  In room rooms ->
  exists pageUrl document,
    In pageUrl (navigations (scrape site web options)) /\
    web pageUrl = Some document /\
    In room (extractListings site document).
Proof.
  intros Hres Hin. rewrite (scrape_resolved _ _ _ _ Hres) in Hin.
  apply applyFilters_In, firstSeen_In in Hin.
  unfold crawled in Hin. apply in_flat_map in Hin as (pageUrl & Hnav & Hroom).
  unfold pageRooms in Hroom.
  destruct (web pageUrl) as [document|] eqn:Hweb; [|contradiction].
  exists pageUrl, document. auto.
Qed.

Lemma cardsToListings_origin (listing : Element -> option Room)
    (cards : list Element) (room : Room) :
  In room (cardsToListings listing cards) ->
  exists card, In card cards /\ listing card = Some room.
Proof.
  unfold cardsToListings.
  assert (Hgen : forall listings,
             In room (fold_left
                        (fun listings card =>
                           match listing card with
                           | Some r => pushUnique listings r
                           | None => listings
                           end) cards listings) ->
             In room listings \/ exists card, In card cards /\ listing card = Some room).
  { induction cards as [|card cards IH]; cbn; intros listings Hin; [left; exact Hin|].
    apply IH in Hin as [Hin|(c & Hc & Hroom)].
    - destruct (listing card) as [r|] eqn:Hr; [|left; exact Hin].
      unfold pushUnique in Hin. destruct (existsb _ listings); [left; exact Hin|].
      apply in_app_or in Hin as [Hin|[<-|[]]]; [left; exact Hin|].
      right. exists card. auto.
    - right. exists c. auto. }
  intros Hin. apply Hgen in Hin as [[]|Hin]. exact Hin.
Qed.

End ScraperFacts.

(** ** The filters *)

Section FilterFacts.

Context `{CaseMapping}.

Lemma applyFilters_ceiling (options : SearchOptions) (P : Z)
    (allRooms : list Room) (room : Room) :
  JS.truthy (maxPrice options) = Some P ->
  In room (applyFilters options allRooms) -> withinCeiling P room.
Proof.
  unfold applyFilters, withinCeiling. intros ->. rewrite filter_In.
  intros [_ Hp]. destruct (price room); [apply Z.leb_le; exact Hp|exact I].
Qed.

Lemma applyFilters_keeps_unpriced (options : SearchOptions)
    (allRooms : list Room) (room : Room) :
  price room = None ->
  In room (applyFilters
             {| maxPrice := None; roomType := roomType options; pages := pages options |}
             allRooms) ->
  In room (applyFilters options allRooms).
Proof.
  unfold applyFilters. cbn [maxPrice roomType JS.truthy]. intros Hnone Hin.
  destruct (JS.truthy (maxPrice options)); [|exact Hin].
  apply filter_In. split; [exact Hin|]. rewrite Hnone. reflexivity.
Qed.

Lemma applyFilters_roomType (options : SearchOptions) (T : string)
    (allRooms : list Room) (room : Room) :
  JS.truthyStr (roomType options) = Some T ->
  In room (applyFilters options allRooms) -> titleMatches T room.
Proof.
  unfold applyFilters, titleMatches. intros ->.
  destruct (JS.truthy (maxPrice options)); rewrite !filter_In;
    intros Hin; apply existsb_exists; tauto.
Qed.

Lemma roomTypes_truthy (T : string) : In T roomTypes -> T <> "".
Proof.
  intros Hin ->. cbn in Hin. repeat destruct Hin as [Hin|Hin]; try discriminate.
  exact Hin.
Qed.

Lemma truthyStr_Some (T : string) : T <> "" -> JS.truthyStr (Some T) = Some T.
Proof.
  intros HT. cbn. destruct (String.eqb_spec T ""); [contradiction|reflexivity].
Qed.

Lemma truthyStr_inv (v : option string) (s : string) :
  JS.truthyStr v = Some s -> v = Some s /\ s <> "".
Proof.
  destruct v as [t|]; cbn; [|discriminate].
  destruct (String.eqb_spec t ""); [discriminate|]. intros [= <-]. auto.
Qed.

Lemma getRoomTypeKeywords_unknown (T : string) :
  ~ In T roomTypes -> getRoomTypeKeywords T = [].
Proof.
  intros HT. unfold getRoomTypeKeywords.
  repeat match goal with
         | |- context [String.eqb T ?k] =>
             destruct (String.eqb_spec T k) as [->|_]; [exfalso; apply HT; cbn; tauto|]
         end.
  reflexivity.
Qed.

Lemma truthy_Int (P : Z) : P <> 0 -> JS.truthy (Some (JS.Int P)) = Some P.
Proof.
  intros HP. cbn. destruct (Z.eqb_spec P 0); [contradiction|reflexivity].
Qed.

End FilterFacts.

(** * The claims *)

Section Claims.

Context {Element : Type} `{Dom Element} `{CaseMapping}.

Lemma either_scraper (web : Web Element) (options : SearchOptions)
    (rooms : list Room) :
  resolved (scrapeOlx web options) = Some rooms \/
  resolved (scrapeOtodom web options) = Some rooms ->
  exists site, resolved (scrape site web options) = Some rooms.
Proof. intros [Hres|Hres]; eexists; exact Hres. Qed.

(** C1, amended. For every non-zero integer [P] supplied as [maxPrice],
    every room returned by [scrapeOlx] or [scrapeOtodom] has no price or a
    price of at most [P]; and the ceiling never excludes a room without a
    price: such a room is returned whenever the filters without the ceiling
    return it. *)
Theorem price_ceiling_respected (web : Web Element) (options : SearchOptions)
    (P : Z) (rooms : list Room) :
  maxPrice options = Some (JS.Int P) ->
  P <> 0 ->
  resolved (scrapeOlx web options) = Some rooms \/
  resolved (scrapeOtodom web options) = Some rooms ->
  Forall (withinCeiling P) rooms /\
  (forall allRooms room,
     price room = None ->
     In room (applyFilters
                {| maxPrice := None; roomType := roomType options;
                   pages := pages options |} allRooms) ->
     In room (applyFilters options allRooms)).
Proof.
  intros HP HP0 Hres. split.
  - apply either_scraper in Hres as (site & Hres).
    apply Forall_forall. intros room Hin.
    rewrite (scrape_resolved _ _ _ _ Hres) in Hin.
    refine (applyFilters_ceiling options P _ room _ Hin).
    rewrite HP. apply truthy_Int. exact HP0.
  - intros allRooms room. apply applyFilters_keeps_unpriced.
Qed.

(** C3, amended. For every [SearchOptions] whose [pages] is absent, [NaN],
    zero or a positive integer (greater than 10 included), the page budget
    is an integer in [1,10], and the page loop of each scraper runs at
    least 1 and at most 10 iterations, each of which starts with one
    navigation.  For every negative integer [pages] the budget is that
    negative number and the page loop of each scraper runs no iteration. *)
Theorem page_budget_in_range (options : SearchOptions) :
  (notNegative (pages options) ->
   1 <= pagesToScrape options <= 10 /\
   (forall (web : Web Element) (run : Run),
      run = scrapeOlx web options \/ run = scrapeOtodom web options ->
      (1 <= List.length (navigations run) <= 10)%nat)) /\
  (forall z,
     pages options = Some (JS.Int z) -> z < 0 ->
     pagesToScrape options = z /\
     (forall (web : Web Element) (run : Run),
        run = scrapeOlx web options \/ run = scrapeOtodom web options ->
        navigations run = [])).
Proof.
  assert (Hsite : forall (web : Web Element) run,
             run = scrapeOlx web options \/ run = scrapeOtodom web options ->
             exists site, run = scrape site web options)
    by (intros web run [->| ->]; eexists; reflexivity).
  split.
  - intros Hpages.
    assert (Hrange : 1 <= pagesToScrape options <= 10).
    { unfold pagesToScrape, MAX_PAGES, JS.orElse, JS.truthy, notNegative in *.
      destruct (pages options) as [[|z]|]; try lia.
      destruct (Z.eqb_spec z 0); lia. }
    split; [exact Hrange|].
    intros web run Hrun. destruct (Hsite web run Hrun) as (site & ->).
    pose proof (scrape_navigations site web options) as (Hlen & _ & Hfirst).
    specialize (Hfirst (proj1 Hrange)).
    destruct (navigations (scrape site web options)); [contradiction|].
    cbn in Hlen |- *. lia.
  - intros z Hpages Hneg.
    assert (Hbudget : pagesToScrape options = z).
    { unfold pagesToScrape, MAX_PAGES, JS.orElse, JS.truthy. rewrite Hpages.
      destruct (Z.eqb_spec z 0); lia. }
    split; [exact Hbudget|].
    intros web run Hrun. destruct (Hsite web run Hrun) as (site & ->).
    pose proof (scrape_navigations site web options) as (Hlen & _ & _).
    rewrite Hbudget in Hlen.
    destruct (navigations (scrape site web options)); [reflexivity|].
    cbn in Hlen. lia.
Qed.

(** C4. Within one run of either scraper no two returned rooms share a
    [url], and the rooms are in first-seen page order: they are the
    records of the visited pages, page after page, each kept where it is
    first seen, and then filtered.  While the pages are accumulated a
    record does not move: adding a page leaves the rooms accumulated so far
    in place and appends only rooms whose [url] they do not have. *)
Theorem crawl_deduplicates_by_url (web : Web Element) (options : SearchOptions)
    (rooms : list Room) :
  (resolved (scrapeOlx web options) = Some rooms ->
   NoDup (map url rooms) /\
   rooms = applyFilters options (firstSeen (crawled olxSite web options))) /\
  (resolved (scrapeOtodom web options) = Some rooms ->
   NoDup (map url rooms) /\
   rooms = applyFilters options (firstSeen (crawled otodomSite web options))) /\
  (forall allRooms page,
     exists added,
       addUnique allRooms page = List.app allRooms added /\
       forall room, In room added ->
                    In room page /\ ~ In (url room) (map url allRooms)).
Proof.
  assert (Hsite : forall site,
             resolved (scrape site web options) = Some rooms ->
             NoDup (map url rooms) /\
             rooms = applyFilters options (firstSeen (crawled site web options))).
  { intros site Hres. pose proof (scrape_resolved _ _ _ _ Hres) as Heq.
    split; [|exact Heq]. rewrite Heq. apply applyFilters_NoDup, firstSeen_NoDup. }
  split; [apply Hsite|split; [apply Hsite|]].
  intros allRooms page. revert allRooms.
  induction page as [|room page IH]; intros allRooms.
  - exists []. rewrite app_nil_r. split; [reflexivity|intros ? []].
  - cbn [addUnique fold_left]. fold (addUnique (pushUnique allRooms room) page).
    destruct (IH (pushUnique allRooms room)) as (added & Heq & Hadded).
    unfold pushUnique in *.
    destruct (existsb _ allRooms) eqn:Hseen.
    + exists added. split; [exact Heq|].
      intros r Hr. destruct (Hadded r Hr). split; [right|]; assumption.
    + exists (room :: added). split; [rewrite Heq, <- app_assoc; reflexivity|].
      intros r [<-|Hr].
      * split; [left; reflexivity|]. intro Hin. apply seen_iff in Hin. congruence.
      * destruct (Hadded r Hr) as [Hpage Hnew]. split; [right; exact Hpage|].
        intro Hin. apply Hnew. rewrite map_app. apply in_or_app. left. exact Hin.
Qed.

(** C5. For every page budget [K] the loop of a scraper navigates at most
    [K] times, whatever the pages say about a next page (never, when [K]
    is not positive); the run ends with a result whenever no navigation
    rejects; and when every page offers a next page (and has listings,
    where an empty page would end the crawl) it is the budget that ends
    the loop, after exactly [K] navigations.  The loop is defined by
    recursion on [K + 1 - pageNum], the pages left in the budget. *)
Theorem fetches_within_budget (web : Web Element) (options : SearchOptions) (K : Z) :
  (forall site,
     let run := crawl site web options K 1 [] in
     Z.of_nat (List.length (navigations run)) <= Z.max 0 K /\
     ((forall pageUrl, web pageUrl <> None) -> resolved run <> None) /\
     ((forall pageUrl, exists document,
          web pageUrl = Some document /\ hasNextPage site document = true /\
          (stopsOnEmptyPage site = true -> extractListings site document <> [])) ->
      Z.of_nat (List.length (navigations run)) = Z.max 0 K)) /\
  Z.of_nat (List.length (navigations (scrapeOlx web options)))
    <= Z.max 0 (pagesToScrape options) /\
  Z.of_nat (List.length (navigations (scrapeOtodom web options)))
    <= Z.max 0 (pagesToScrape options).
Proof.
  assert (Hbound : forall site K',
             Z.of_nat (List.length (navigations (crawl site web options K' 1 [])))
             <= Z.max 0 K').
  { intros site K'.
    pose proof (crawl_run site web options K' _ 1 [] (Nat.le_refl _)) as (Hlen & _).
    lia. }
  split; [|split; apply Hbound].
  intros site. cbv zeta. split; [apply Hbound|split].
  - intros Hweb. apply (crawl_resolves site web options K _ Hweb 1 [] (Nat.le_refl _)).
  - intros Hweb.
    rewrite (crawl_exhausts_budget site web options K _ Hweb 1 [] (Nat.le_refl _)).
    lia.
Qed.

(** C6, amended. For every [SearchOptions] and page number each scraper
    builds the page URL as a function of the two: the listing URL, then
    the price filter exactly when [maxPrice] is truthy (present, not [NaN]
    and not zero), then the page number exactly when [pageNum > 1]; page 1
    without a truthy [maxPrice] is the bare listing URL. *)
Theorem page_url_parameters (options : SearchOptions) (pageNum : Z) :
  buildPageUrl (Element := Element) olxSite options pageNum =
    "https://www.olx.pl/nieruchomosci/stancje-pokoje/warszawa/"
    ++ queryString "search%5Bfilter_float_price%3Ato%5D" options pageNum /\
  buildPageUrl (Element := Element) otodomSite options pageNum =
    "https://www.otodom.pl/pl/wyniki/wynajem/pokoj/mazowieckie/warszawa/warszawa/warszawa"
    ++ queryString "priceMax" options pageNum.
Proof.
  unfold buildPageUrl, pageParams, queryString.
  destruct (JS.truthy (maxPrice options)), (pageNum >? 1); split; reflexivity.
Qed.

Lemma orElseStr_nonempty (v : option string) (d : string) :
  d <> "" -> JS.orElseStr v d <> "".
Proof.
  intros Hd. unfold JS.orElseStr.
  destruct (JS.truthyStr v) as [s|] eqn:Hv; [|exact Hd].
  apply truthyStr_inv in Hv. tauto.
Qed.

Lemma orElseStr_default (v : option string) (d : string) :
  JS.truthyStr v = None -> JS.orElseStr v d = d.
Proof. unfold JS.orElseStr. intros ->. reflexivity. Qed.

Lemma otodomLocation_shape (text : string) :
  otodomLocation text = "Warszawa" \/
  exists district, district <> "" /\ otodomLocation text = "Warszawa, " ++ district.
Proof.
  unfold otodomLocation.
  assert (Hacc : forall m d, acceptedDistrict m = Some d -> d <> "").
  { intros m d. unfold acceptedDistrict.
    destruct (JS.truthyStr m) as [m1|] eqn:Hm; [|discriminate].
    destruct (negb _ && negb _); [|discriminate].
    intros [= <-]. apply truthyStr_inv in Hm. tauto. }
  destruct (orEl _ _) as [d|] eqn:Hd; [right|left; reflexivity].
  exists d. split; [|reflexivity].
  unfold orEl in Hd.
  destruct (acceptedDistrict (JS.matchDistrict true text)) as [d1|] eqn:H1.
  - injection Hd as <-. exact (Hacc _ _ H1).
  - exact (Hacc _ _ Hd).
Qed.

Lemma olxListing_texts (card : Element) (room : Room) :
  olxListing card = Some room ->
  title room = JS.orElseStr (olxTitleText (olxContainer card)) "Room listing" /\
  location room = JS.orElseStr (olxLocationText (olxContainer card)) "Warszawa" /\
  imageUrl room = JS.truthyStr (thumbnailSrc (olxContainer card)).
Proof.
  unfold olxListing. cbv zeta.
  destruct (orEl _ _) as [linkEl|]; [|discriminate].
  destruct (negb _ && negb _); [discriminate|].
  intros [= <-]. cbn. auto.
Qed.

Lemma otodomListing_texts (card : Element) (room : Room) :
  otodomListing card = Some room ->
  title room =
    (let text := JS.orElseStr (otodomTitleText (otodomContainer card)) "" in
     if String.eqb text "" then "Room in Warsaw" else text) /\
  location room =
    otodomLocation (JS.orElseStr (textContent (otodomContainer card)) "") /\
  imageUrl room = JS.truthyStr (thumbnailSrc (otodomContainer card)).
Proof.
  unfold otodomListing. cbv zeta.
  destruct (orEl _ _) as [linkEl|]; [|discriminate].
  destruct (negb _); [discriminate|].
  intros [= <-]. cbn. auto.
Qed.

Lemma olx_origin (web : Web Element) (options : SearchOptions)
    (rooms : list Room) (room : Room) :
  resolved (scrapeOlx web options) = Some rooms ->
  In room rooms ->
  exists pageUrl document card,
    In pageUrl (navigations (scrapeOlx web options)) /\
    web pageUrl = Some document /\
    In card (findCards document olxSelectors) /\
    olxListing card = Some room.
Proof.
  intros Hres Hin.
  destruct (scrape_origin olxSite web options rooms room Hres Hin)
    as (pageUrl & document & Hnav & Hweb & Hroom).
  apply cardsToListings_origin in Hroom as (card & Hcard & Hlisting).
  exists pageUrl, document, card. auto.
Qed.

Lemma otodom_origin (web : Web Element) (options : SearchOptions)
    (rooms : list Room) (room : Room) :
  resolved (scrapeOtodom web options) = Some rooms ->
  In room rooms ->
  exists pageUrl document card,
    In pageUrl (navigations (scrapeOtodom web options)) /\
    web pageUrl = Some document /\
    In card (findCards document otodomSelectors) /\
    otodomListing card = Some room.
Proof.
  intros Hres Hin.
  destruct (scrape_origin otodomSite web options rooms room Hres Hin)
    as (pageUrl & document & Hnav & Hweb & Hroom).
  apply cardsToListings_origin in Hroom as (card & Hcard & Hlisting).
  exists pageUrl, document, card. auto.
Qed.

(** C7. Every room returned by either scraper has a non-empty title and a
    non-empty location: when the extraction yields no title text (no
    element, or only white space) the title is the default of the source,
    "Room listing" on OLX and "Room in Warsaw" on Otodom, and when it
    yields no location the location is "Warszawa"; an Otodom location is
    otherwise "Warszawa, " and a non-empty district. *)
Theorem title_and_location_never_empty (web : Web Element)
    (options : SearchOptions) (rooms : list Room) :
  (resolved (scrapeOlx web options) = Some rooms \/
   resolved (scrapeOtodom web options) = Some rooms ->
   Forall (fun room => title room <> "" /\ location room <> "") rooms) /\
  (forall card room,
     olxListing card = Some room ->
     (JS.truthyStr (olxTitleText (olxContainer card)) = None ->
      title room = "Room listing") /\
     (JS.truthyStr (olxLocationText (olxContainer card)) = None ->
      location room = "Warszawa")) /\
  (forall card room,
     otodomListing card = Some room ->
     (JS.truthyStr (otodomTitleText (otodomContainer card)) = None ->
      title room = "Room in Warsaw") /\
     (location room = "Warszawa" \/
      exists district,
        district <> "" /\ location room = "Warszawa, " ++ district)).
Proof.
  split; [|split].
  - intros Hres. apply Forall_forall. intros room Hin. destruct Hres as [Hres|Hres].
    + destruct (olx_origin _ _ _ _ Hres Hin) as (_ & _ & card & _ & _ & _ & Hcard).
      apply olxListing_texts in Hcard as (-> & -> & _).
      split; apply orElseStr_nonempty; discriminate.
    + destruct (otodom_origin _ _ _ _ Hres Hin) as (_ & _ & card & _ & _ & _ & Hcard).
      apply otodomListing_texts in Hcard as (-> & -> & _). cbv zeta. split.
      * destruct (String.eqb_spec
                    (JS.orElseStr (otodomTitleText (otodomContainer card)) "") "");
          [discriminate|assumption].
      * destruct (otodomLocation_shape
                    (JS.orElseStr (textContent (otodomContainer card)) ""))
          as [->|(district & _ & ->)]; discriminate.
  - intros card room Hcard.
    apply olxListing_texts in Hcard as (-> & -> & _).
    split; apply orElseStr_default.
  - intros card room Hcard.
    apply otodomListing_texts in Hcard as (-> & -> & _). cbv zeta. split.
    + intros Hnone. rewrite (orElseStr_default _ "" Hnone). reflexivity.
    + apply otodomLocation_shape.
Qed.

(** C8. For every room type [T] of the closed set supplied as [roomType],
    every room returned by either scraper has a title whose lower-cased
    form contains a keyword of [T]. *)
Theorem room_type_filter_respected (web : Web Element) (options : SearchOptions)
    (T : string) (rooms : list Room) :
  In T roomTypes ->
  roomType options = Some T ->
  resolved (scrapeOlx web options) = Some rooms \/
  resolved (scrapeOtodom web options) = Some rooms ->
  Forall (titleMatches T) rooms.
Proof.
  intros HT Hopt Hres. apply either_scraper in Hres as (site & Hres).
  apply Forall_forall. intros room Hin.
  rewrite (scrape_resolved _ _ _ _ Hres) in Hin.
  refine (applyFilters_roomType options T _ room _ Hin).
  rewrite Hopt. apply truthyStr_Some, roomTypes_truthy, HT.
Qed.

(** C9, amended. For every room returned by either scraper whose
    [imageUrl] is present, the stored [imageUrl] is the non-empty [src]
    attribute of the first [img] of the listing's own container (the
    container of the card, on a visited page, that the room was extracted
    from), as it was extracted: a relative reference stays relative. *)
Theorem image_url_is_the_src_attribute (web : Web Element)
    (options : SearchOptions) (rooms : list Room) :
  (resolved (scrapeOlx web options) = Some rooms ->
   forall room src,
     In room rooms -> imageUrl room = Some src ->
     src <> "" /\
     exists pageUrl document card,
       In pageUrl (navigations (scrapeOlx web options)) /\
       web pageUrl = Some document /\
       In card (findCards document olxSelectors) /\
       olxListing card = Some room /\
       thumbnailSrc (olxContainer card) = Some src) /\
  (resolved (scrapeOtodom web options) = Some rooms ->
   forall room src,
     In room rooms -> imageUrl room = Some src ->
     src <> "" /\
     exists pageUrl document card,
       In pageUrl (navigations (scrapeOtodom web options)) /\
       web pageUrl = Some document /\
       In card (findCards document otodomSelectors) /\
       otodomListing card = Some room /\
       thumbnailSrc (otodomContainer card) = Some src).
Proof.
  split; intros Hres room src Hin Hsrc.
  - destruct (olx_origin _ _ _ _ Hres Hin)
      as (pageUrl & document & card & Hnav & Hweb & Hcard & Hlisting).
    pose proof (olxListing_texts _ _ Hlisting) as (_ & _ & Himg).
    rewrite Himg in Hsrc. apply truthyStr_inv in Hsrc as [Hsrc Hne].
    split; [exact Hne|]. exists pageUrl, document, card. auto.
  - destruct (otodom_origin _ _ _ _ Hres Hin)
      as (pageUrl & document & card & Hnav & Hweb & Hcard & Hlisting).
    pose proof (otodomListing_texts _ _ Hlisting) as (_ & _ & Himg).
    rewrite Himg in Hsrc. apply truthyStr_inv in Hsrc as [Hsrc Hne].
    split; [exact Hne|]. exists pageUrl, document, card. auto.
Qed.

(** C10, amended. For every [SearchOptions] whose [roomType] is a
    non-empty string outside the closed set, [getRoomTypeKeywords] returns
    the empty keyword list, the room-type filter removes every accumulated
    room, and both scrapers return the empty sequence. *)
Theorem unknown_room_type_returns_nothing (web : Web Element)
    (options : SearchOptions) (T : string) (rooms : list Room) :
  ~ In T roomTypes ->
  T <> "" ->
  roomType options = Some T ->
  resolved (scrapeOlx web options) = Some rooms \/
  resolved (scrapeOtodom web options) = Some rooms ->
  getRoomTypeKeywords T = [] /\ rooms = [].
Proof.
  intros HT Hne Hopt Hres.
  pose proof (getRoomTypeKeywords_unknown T HT) as Hkw.
  split; [exact Hkw|].
  apply either_scraper in Hres as (site & Hres).
  destruct rooms as [|room rooms]; [reflexivity|exfalso].
  assert (Hin : In room (room :: rooms)) by (left; reflexivity).
  rewrite (scrape_resolved _ _ _ _ Hres) in Hin.
  assert (Hmatch : titleMatches T room).
  { refine (applyFilters_roomType options T _ room _ Hin).
    rewrite Hopt. apply truthyStr_Some, Hne. }
  destruct Hmatch as (kw & Hkwin & _). rewrite Hkw in Hkwin. exact Hkwin.
Qed.

End Claims.

(** * Further properties of the code *)

(** ** Strings *)

Lemma append_assoc (a b c : string) : (a ++ b) ++ c = a ++ b ++ c.
Proof. induction a as [|x a IH]; cbn; [reflexivity|f_equal; exact IH]. Qed.

Lemma append_cancel_l (a b c : string) : a ++ b = a ++ c -> b = c.
Proof. induction a as [|x a IH]; cbn; [auto|intros [= Heq]; auto]. Qed.

Lemma append_length (a b : string) :
  String.length (a ++ b) = (String.length a + String.length b)%nat.
Proof. induction a as [|x a IH]; cbn; [reflexivity|f_equal; exact IH]. Qed.

Lemma showZ_injective (a b : Z) : JS.showZ a = JS.showZ b -> a = b.
Proof.
  assert (Hnil : forall z, Z.to_int z <> Decimal.Pos Decimal.Nil /\
                           Z.to_int z <> Decimal.Neg Decimal.Nil).
  { intros z. split; intros Hz; pose proof (f_equal Z.of_int Hz) as Hz0;
      rewrite DecimalZ.of_to in Hz0; cbn in Hz0; subst z; discriminate Hz. }
  unfold JS.showZ. intros Heq.
  apply (f_equal NilZero.int_of_string) in Heq.
  rewrite !NilZero.isi in Heq by apply Hnil.
  injection Heq as Heq. apply (f_equal Z.of_int) in Heq.
  rewrite !DecimalZ.of_to in Heq. exact Heq.
Qed.

Lemma includes_self (s : string) : JS.includes s s = true.
Proof.
  destruct s as [|c s]; [reflexivity|].
  cbn [JS.includes]. apply orb_true_iff. left.
  apply (proj2 (String.prefix_correct _ _)).
  generalize (String c s). clear. intros s.
  induction s as [|c s IH]; cbn; [reflexivity|f_equal; exact IH].
Qed.

Lemma includes_append_r (a b t : string) :
  JS.includes b t = true -> JS.includes (a ++ b) t = true.
Proof.
  intros Hb. induction a as [|c a IH]; [exact Hb|].
  cbn [append JS.includes]. rewrite IH. apply orb_true_r.
Qed.

(** ** The crawl, page by page *)

Section CrawlPages.

Context {Element : Type} `{Dom Element} `{CaseMapping}.

Lemma pagesFrom_snoc (pageNum : Z) (count : nat) :
  pagesFrom pageNum (S count) =
  List.app (pagesFrom pageNum count) [pageNum + Z.of_nat count].
Proof.
  revert pageNum. induction count as [|count IH]; intros pageNum.
  - cbn. f_equal. lia.
  - change (pagesFrom pageNum (S (S count)))
      with (pageNum :: pagesFrom (pageNum + 1) (S count)).
    rewrite IH. cbn. do 3 f_equal. lia.
Qed.

Lemma pagesFrom_In (pageNum : Z) (count : nat) (p : Z) :
  In p (pagesFrom pageNum count) <-> pageNum <= p < pageNum + Z.of_nat count.
Proof.
  revert pageNum. induction count as [|count IH]; intros pageNum; cbn [pagesFrom In].
  - lia.
  - rewrite IH. lia.
Qed.

Lemma pagesFrom_NoDup (pageNum : Z) (count : nat) : NoDup (pagesFrom pageNum count).
Proof.
  revert pageNum. induction count as [|count IH]; intros pageNum; cbn; constructor.
  - rewrite pagesFrom_In. lia.
  - apply IH.
Qed.

Lemma continues_goes_on (site : Site) (web : Web Element) (options : SearchOptions)
    (pageNum : Z) :
  continues site web options pageNum ->
  exists document,
    web (buildPageUrl site options pageNum) = Some document /\
    negb (hasNextPage site document)
    || (stopsOnEmptyPage site
        && (Z.of_nat (List.length (extractListings site document)) =? 0)) = false.
Proof.
  intros (document & Hweb & Hnext & Hrooms). exists document. split; [exact Hweb|].
  rewrite Hnext. cbn [negb orb].
  destruct (stopsOnEmptyPage site); [|reflexivity].
  destruct (extractListings site document); [exfalso; apply Hrooms; reflexivity|].
  reflexivity.
Qed.

(** While the pages go on, the loop follows them: the pages up to the
    first one that ends the crawl are navigated to, in order, and none
    after it. *)
Lemma crawl_to_first_end (site : Site) (web : Web Element)
    (options : SearchOptions) (K : Z) (n : nat) :
  forall (pageNum : Z) (allRooms : list Room) (k : Z),
    (Z.to_nat (K + 1 - pageNum) <= n)%nat ->
    pageNum <= k <= K ->
    (forall j, pageNum <= j < k -> continues site web options j) ->
    ends site web options k ->
    navigations (crawl site web options K pageNum allRooms) =
    map (buildPageUrl site options) (pagesFrom pageNum (Z.to_nat (k - pageNum + 1))).
Proof.
  induction n as [|n IH]; intros pageNum allRooms k Hn Hk Hgo Hend; [lia|].
  rewrite crawl_step. rewrite (proj2 (Z.leb_le _ _)) by lia. cbv zeta.
  destruct (Z.eq_dec pageNum k) as [->|Hneq].
  - replace (Z.to_nat (k - k + 1)) with 1%nat by lia. cbn [pagesFrom map].
    unfold ends in Hend.
    destruct (web (buildPageUrl site options k)) as [document|]; [|reflexivity].
    assert (Hstop : negb (hasNextPage site document)
                    || (stopsOnEmptyPage site
                        && (Z.of_nat (List.length (extractListings site document)) =? 0))
                    = true).
    { destruct Hend as [->|[-> ->]]; [reflexivity|]. apply orb_true_r. }
    rewrite Hstop. reflexivity.
  - destruct (continues_goes_on site web options pageNum) as (document & -> & ->);
      [apply Hgo; lia|].
    cbn [visit navigations].
    rewrite (IH (pageNum + 1) _ k) by (try lia; try assumption; intros; apply Hgo; lia).
    replace (Z.to_nat (k - pageNum + 1)) with (S (Z.to_nat (k - (pageNum + 1) + 1))) by lia.
    reflexivity.
Qed.

(** A page is navigated to whenever the pages before it go on. *)
Lemma crawl_reaches (site : Site) (web : Web Element)
    (options : SearchOptions) (K : Z) (n : nat) :
  forall (pageNum : Z) (allRooms : list Room) (k : Z),
    (Z.to_nat (K + 1 - pageNum) <= n)%nat ->
    pageNum <= k <= K ->
    (forall j, pageNum <= j < k -> continues site web options j) ->
    In (buildPageUrl site options k)
       (navigations (crawl site web options K pageNum allRooms)).
Proof.
  induction n as [|n IH]; intros pageNum allRooms k Hn Hk Hgo; [lia|].
  rewrite crawl_step. rewrite (proj2 (Z.leb_le _ _)) by lia. cbv zeta.
  destruct (Z.eq_dec pageNum k) as [->|Hneq].
  - destruct (web (buildPageUrl site options k)) as [document|]; [|left; reflexivity].
    destruct (negb _ || _); left; reflexivity.
  - destruct (continues_goes_on site web options pageNum) as (document & -> & ->);
      [apply Hgo; lia|].
    right. apply IH; [lia|lia|]. intros j Hj. apply Hgo. lia.
Qed.

(** A run rejects exactly when its last navigation failed; every
    navigation before the last one rendered a page. *)
Lemma crawl_outcome (site : Site) (web : Web Element)
    (options : SearchOptions) (K : Z) (n : nat) :
  forall (pageNum : Z) (allRooms : list Room),
    (Z.to_nat (K + 1 - pageNum) <= n)%nat ->
    let run := crawl site web options K pageNum allRooms in
    match resolved run with
    | Some _ => Forall (fun pageUrl => web pageUrl <> None) (navigations run)
    | None =>
        exists before pageUrl,
          navigations run = List.app before [pageUrl] /\
          web pageUrl = None /\
          Forall (fun pageUrl => web pageUrl <> None) before
    end.
Proof.
  induction n as [|n IH]; intros pageNum allRooms Hn; cbv zeta;
    rewrite crawl_step; destruct (Z.leb_spec pageNum K) as [Hle|Hgt];
    try lia; try (cbn; constructor).
  cbv zeta.
  destruct (web (buildPageUrl site options pageNum)) as [document|] eqn:Hweb.
  - assert (Hok : web (buildPageUrl site options pageNum) <> None) by congruence.
    destruct (negb _ || _).
    + cbn. constructor; [exact Hok|constructor].
    + specialize (IH (pageNum + 1)
                     (addUnique allRooms (extractListings site document))).
      cbv zeta in IH. cbn [visit navigations resolved].
      destruct (resolved (crawl _ _ _ _ _ _)).
      * constructor; [exact Hok|apply IH; lia].
      * destruct IH as (before & pageUrl & Hnav & Hfail & Hbefore); [lia|].
        exists (buildPageUrl site options pageNum :: before), pageUrl.
        rewrite Hnav. repeat split; [exact Hfail|].
        constructor; assumption.
  - cbn. exists [], (buildPageUrl site options pageNum).
    repeat split; [exact Hweb|constructor].
Qed.

End CrawlPages.

(** ** Page URLs *)

Lemma append_nil_r (a : string) : a ++ "" = a.
Proof. induction a as [|x a IH]; cbn; [reflexivity|f_equal; exact IH]. Qed.

Lemma append_not_longer (a b : string) : a ++ b = a -> b = "".
Proof.
  intros Heq. apply (append_cancel_l a). rewrite append_nil_r. exact Heq.
Qed.

Lemma NoDup_map_where {A B : Type} (f : A -> B) (l : list A) :
  (forall x y, In x l -> In y l -> f x = f y -> x = y) ->
  NoDup l -> NoDup (map f l).
Proof.
  induction l as [|a l IH]; intros Hinj Hnd; cbn; constructor.
  - inversion_clear Hnd as [|? ? Ha _]. intros Hin.
    apply in_map_iff in Hin as (b & Heq & Hb).
    apply Ha. rewrite (Hinj a b); [exact Hb|left; reflexivity|right; exact Hb|].
    symmetry. exact Heq.
  - inversion_clear Hnd as [|? ? _ Hl]. apply IH; [|exact Hl].
    intros x y Hx Hy. apply Hinj; right; assumption.
Qed.

Section PageUrls.

Context {Element : Type} `{Dom Element} `{CaseMapping}.

(** Different pages have different URLs. *)
Lemma buildPageUrl_injective (site : @Site Element) (options : SearchOptions)
    (p1 p2 : Z) :
  1 <= p1 -> 1 <= p2 ->
  buildPageUrl site options p1 = buildPageUrl site options p2 -> p1 = p2.
Proof.
  intros H1 H2. unfold buildPageUrl, pageParams.
  destruct (JS.truthy (maxPrice options)) as [P|];
    destruct (Z.gtb_spec p1 1), (Z.gtb_spec p2 1); cbn [List.app JS.join];
    try lia; intros Heq.
  - apply append_cancel_l in Heq. injection Heq as Heq.
    rewrite !append_assoc in Heq.
    do 2 apply append_cancel_l in Heq.
    injection Heq as Heq. apply showZ_injective. exact Heq.
  - apply append_cancel_l in Heq. injection Heq as Heq.
    apply append_not_longer in Heq. discriminate.
  - symmetry in Heq. apply append_cancel_l in Heq. injection Heq as Heq.
    apply append_not_longer in Heq. discriminate.
  - apply append_cancel_l in Heq. injection Heq as Heq.
    apply showZ_injective. exact Heq.
  - apply append_not_longer in Heq. discriminate.
  - symmetry in Heq. apply append_not_longer in Heq. discriminate.
Qed.

(** X1. A run of either scraper navigates to the pages 1, 2, ... in this
    order and without a gap, and to no URL twice. *)
Theorem pages_fetched_in_order_once (site : Site) (web : Web Element)
    (options : SearchOptions) :
  let fetched := navigations (scrape site web options) in
  fetched = map (buildPageUrl site options) (pagesFrom 1 (List.length fetched)) /\
  NoDup fetched.
Proof.
  cbv zeta.
  pose proof (scrape_navigations site web options) as (_ & Hnav & _).
  split; [exact Hnav|]. rewrite Hnav.
  apply NoDup_map_where; [|apply pagesFrom_NoDup].
  intros x y Hx Hy. apply pagesFrom_In in Hx, Hy.
  apply buildPageUrl_injective; lia.
Qed.

(** X2. When the pages before page [k] go on and page [k], within the
    budget, ends the crawl (its navigation rejects, or it offers no next
    page, or it is empty on a site where that ends the crawl), exactly the
    pages 1 to [k] are navigated to. *)
Theorem crawl_ends_at_first_ending_page (site : Site) (web : Web Element)
    (options : SearchOptions) (k : Z) :
  1 <= k <= pagesToScrape options ->
  (forall j, 1 <= j < k -> continues site web options j) ->
  ends site web options k ->
  navigations (scrape site web options) =
  map (buildPageUrl site options) (pagesFrom 1 (Z.to_nat k)).
Proof.
  intros Hk Hgo Hend. unfold scrape. cbn [navigations].
  rewrite (crawl_to_first_end site web options (pagesToScrape options) _ 1 [] k
             (Nat.le_refl _) Hk Hgo Hend).
  do 2 f_equal. lia.
Qed.

(** X3. An empty page ends the Otodom crawl even when it offers a next
    page, and does not end the OLX crawl: on OLX the page after a rendered
    page that offers a next page is navigated to, whatever the page
    lists. *)
Theorem empty_page_ends_otodom_not_olx (web : Web Element)
    (options : SearchOptions) (k : Z) :
  (forall document,
     1 <= k <= pagesToScrape options ->
     (forall j, 1 <= j < k -> continues otodomSite web options j) ->
     web (buildPageUrl otodomSite options k) = Some document ->
     otodomExtract document = [] ->
     navigations (scrapeOtodom web options) =
     map (buildPageUrl otodomSite options) (pagesFrom 1 (Z.to_nat k))) /\
  (1 <= k < pagesToScrape options ->
   (forall j, 1 <= j <= k ->
      exists document,
        web (buildPageUrl olxSite options j) = Some document /\
        olxHasNextPage document = true) ->
   In (buildPageUrl olxSite options (k + 1)) (navigations (scrapeOlx web options))).
Proof.
  split.
  - intros document Hk Hgo Hweb Hempty.
    apply crawl_ends_at_first_ending_page; [exact Hk|exact Hgo|].
    unfold ends. rewrite Hweb. right. split; [reflexivity|exact Hempty].
  - intros Hk Hnext. unfold scrapeOlx, scrape. cbn [navigations].
    apply (crawl_reaches olxSite web options (pagesToScrape options) _ 1 [] (k + 1)
             (Nat.le_refl _)); [lia|].
    intros j Hj. destruct (Hnext j) as (document & Hweb & Hhas); [lia|].
    exists document. repeat split; [exact Hweb|exact Hhas|discriminate].
Qed.

(** The [try] block rejects exactly when its last navigation failed;
    every navigation before the last one, and every navigation of a block
    that returns, rendered a page. *)
Lemma scrape_outcome (site : Site) (web : Web Element) (options : SearchOptions) :
  match resolved (scrape site web options) with
  | Some _ =>
      Forall (fun pageUrl => web pageUrl <> None)
             (navigations (scrape site web options))
  | None =>
      exists before pageUrl,
        navigations (scrape site web options) = List.app before [pageUrl] /\
        web pageUrl = None /\
        Forall (fun pageUrl => web pageUrl <> None) before
  end.
Proof.
  pose proof (crawl_outcome site web options (pagesToScrape options) _ 1 []
                (Nat.le_refl _)) as Hout.
  cbv zeta in Hout. unfold scrape. cbn [navigations resolved].
  destruct (resolved (crawl _ _ _ _ _ _)); exact Hout.
Qed.

(** X4. A scraper rejects exactly when the browser does not start (the
    launch, the new page or the user agent rejects), or the page it
    navigated to last failed (the navigation or a later step on the page
    rejected), or the close of the browser rejects.  Without a start
    nothing is navigated to; every page before the last one navigated to
    rendered, and so did every page of a run that resolves. *)
Theorem run_rejects_on_browser_or_page_failure (site : Site)
    (browser : Browser Element) (options : SearchOptions) :
  let run := scrapeWith site browser options in
  let rendered := fun pageUrl => renders browser pageUrl <> None in
  (resolved run = None <->
   starts browser = false \/
   closes browser = false \/
   exists before pageUrl,
     navigations run = List.app before [pageUrl] /\
     renders browser pageUrl = None) /\
  (starts browser = false -> navigations run = []) /\
  (forall before pageUrl,
     navigations run = List.app before [pageUrl] -> Forall rendered before) /\
  (resolved run <> None -> Forall rendered (navigations run)).
Proof.
  cbv zeta. unfold scrapeWith.
  pose proof (scrape_outcome site (renders browser) options) as Hout.
  destruct (starts browser).
  - cbn [navigations resolved].
    destruct (resolved (scrape site (renders browser) options)) as [rooms|] eqn:Hres.
    + assert (Hlast : forall before pageUrl,
                 navigations (scrape site (renders browser) options)
                 = List.app before [pageUrl] ->
                 Forall (fun u => renders browser u <> None) before /\
                 renders browser pageUrl <> None).
      { intros before pageUrl Heq. rewrite Heq in Hout.
        apply Forall_app in Hout as [Hbefore Hlast].
        split; [exact Hbefore|]. inversion Hlast; assumption. }
      repeat split.
      * destruct (closes browser); [discriminate|]. intros _. right. left. reflexivity.
      * intros [Hstart|[Hclose|(before & pageUrl & Heq & Hfail)]].
        -- discriminate.
        -- rewrite Hclose. reflexivity.
        -- destruct (Hlast before pageUrl Heq) as [_ Hok]. contradiction.
      * discriminate.
      * intros before pageUrl Heq. apply (Hlast before pageUrl Heq).
      * intros _. exact Hout.
    + destruct Hout as (before & pageUrl & Hnav & Hfail & Hbefore).
      assert (Hnone : (if closes browser then @None (list Room) else None) = None)
        by (destruct (closes browser); reflexivity).
      rewrite Hnone. repeat split.
      * intros _. right. right. exists before, pageUrl. auto.
      * discriminate.
      * intros before' pageUrl' Heq. rewrite Hnav in Heq.
        apply app_inj_tail in Heq as [<- _]. exact Hbefore.
      * intros Hres'. contradiction.
  - cbn [navigations resolved]. repeat split.
    + intros _. left. reflexivity.
    + intros before pageUrl Heq. destruct before; discriminate.
    + intros Hres. contradiction.
Qed.

End PageUrls.

(** ** What a page's extraction produces *)

Lemma parseDigits_nonneg (s : string) (acc : Z) :
  0 <= acc -> 0 <= JS.parseDigits acc s.
Proof.
  revert acc. induction s as [|c s IH]; intros acc Hacc; cbn [JS.parseDigits];
    [exact Hacc|].
  destruct (JS.isDigit c) eqn:Hc; [|exact Hacc].
  apply IH. unfold JS.isDigit in Hc. apply andb_true_iff in Hc as [Hlow _].
  apply Nat.leb_le in Hlow. lia.
Qed.

Lemma firstSeen_again (records : list Room) :
  firstSeen (firstSeen records) = firstSeen records.
Proof. apply firstSeen_fixed, firstSeen_NoDup. Qed.

Lemma firstSeen_app_r (before after : list Room) :
  firstSeen (List.app before (firstSeen after)) = firstSeen (List.app before after).
Proof.
  induction before as [|b before IH]; cbn; [apply firstSeen_again|].
  rewrite IH. reflexivity.
Qed.

Lemma firstSeen_app_l (before after : list Room) :
  firstSeen (List.app (firstSeen before) after) = firstSeen (List.app before after).
Proof.
  rewrite <- (addUnique_firstSeen after (firstSeen before)) by apply firstSeen_NoDup.
  pose proof (addUnique_firstSeen before [] (NoDup_nil _)) as Hbefore.
  pose proof (addUnique_firstSeen (List.app before after) [] (NoDup_nil _)) as Hall.
  cbn [List.app] in Hbefore, Hall. rewrite <- Hbefore, <- Hall.
  unfold addUnique. rewrite fold_left_app. reflexivity.
Qed.

Lemma firstSeen_flat_map {A : Type} (f : A -> list Room) (l : list A) :
  firstSeen (flat_map (fun a => firstSeen (f a)) l) = firstSeen (flat_map f l).
Proof.
  induction l as [|a l IH]; [reflexivity|]. cbn [flat_map].
  rewrite firstSeen_app_l, <- firstSeen_app_r, IH, firstSeen_app_r. reflexivity.
Qed.

Section Extraction.

Context {Element : Type} `{Dom Element} `{CaseMapping}.

Lemma cardsToListings_firstSeen (listing : Element -> option Room)
    (cards : list Element) :
  cardsToListings listing cards = firstSeen (candidates listing cards).
Proof.
  unfold cardsToListings.
  assert (Hgen : forall listings,
             fold_left
               (fun listings card =>
                  match listing card with
                  | Some room => pushUnique listings room
                  | None => listings
                  end) cards listings
             = addUnique listings (candidates listing cards)).
  { induction cards as [|card cards IH]; intros listings; [reflexivity|].
    cbn [fold_left]. rewrite IH. unfold candidates. cbn [flat_map].
    fold (candidates listing cards).
    destruct (listing card); reflexivity. }
  rewrite Hgen. apply (addUnique_firstSeen _ []). constructor.
Qed.

(** X5. The listings extracted from one page are its candidate listings
    (one for each card with a link to a listing, in card order), each kept
    where its [url] is first seen: a page's extraction has no two listings
    with one [url], on OLX and on Otodom. *)
Theorem page_extraction_keeps_first_of_each_url (document : Document Element) :
  olxExtract document = firstSeen (olxCandidates document) /\
  NoDup (map url (olxExtract document)) /\
  otodomExtract document = firstSeen (otodomCandidates document) /\
  NoDup (map url (otodomExtract document)).
Proof.
  unfold olxExtract, otodomExtract, olxCandidates, otodomCandidates.
  rewrite !cardsToListings_firstSeen.
  repeat split; apply firstSeen_NoDup.
Qed.

(** X6. Deduplicating page by page and then across the pages is the same
    as deduplicating once over the candidate listings of all visited
    pages: a run that resolves returns the filtered first-seen candidates
    of the pages it visited. *)
Theorem run_keeps_first_of_each_url_overall (web : Web Element)
    (options : SearchOptions) (rooms : list Room) :
  (resolved (scrapeOlx web options) = Some rooms ->
   rooms =
   applyFilters options
     (firstSeen
        (flat_map (fun pageUrl => match web pageUrl with
                                  | Some document => olxCandidates document
                                  | None => []
                                  end)
                  (navigations (scrapeOlx web options))))) /\
  (resolved (scrapeOtodom web options) = Some rooms ->
   rooms =
   applyFilters options
     (firstSeen
        (flat_map (fun pageUrl => match web pageUrl with
                                  | Some document => otodomCandidates document
                                  | None => []
                                  end)
                  (navigations (scrapeOtodom web options))))).
Proof.
  split; intros Hres; rewrite (scrape_resolved _ _ _ _ Hres) at 1;
    unfold crawled; f_equal;
    rewrite <- firstSeen_flat_map with (f := fun pageUrl => match web pageUrl with
                                                           | Some document => _
                                                           | None => []
                                                           end);
    f_equal; apply flat_map_ext; intros pageUrl; unfold pageRooms;
    destruct (web pageUrl) as [document|]; try reflexivity; cbn.
  - unfold olxExtract, olxCandidates. apply cardsToListings_firstSeen.
  - unfold otodomExtract, otodomCandidates. apply cardsToListings_firstSeen.
Qed.

Lemma olxListing_fields (card : Element) (room : Room) :
  olxListing card = Some room ->
  JS.startsWith (url room) "http" = true /\
  (JS.includes (url room) "/d/" = true \/ JS.includes (url room) "/oferta/" = true) /\
  (forall p, price room = Some p -> 0 <= p) /\
  area room = None /\ currency room = "PLN" /\ source room = olx.
Proof.
  unfold olxListing. cbv zeta.
  destruct (orEl _ _) as [linkEl|]; [|discriminate].
  set (href := JS.orElseStr (getAttribute linkEl "href") "").
  destruct (negb (JS.includes href "/d/") && negb (JS.includes href "/oferta/"))
    eqn:Hdetail; [discriminate|].
  intros [= <-]. cbn [url price area currency source].
  assert (Hpattern : JS.includes href "/d/" = true \/ JS.includes href "/oferta/" = true).
  { destruct (JS.includes href "/d/"); [left; reflexivity|].
    destruct (JS.includes href "/oferta/"); [right; reflexivity|discriminate]. }
  repeat split.
  - destruct (JS.startsWith href "http") eqn:Habs; [exact Habs|reflexivity].
  - destruct (JS.startsWith href "http");
      [exact Hpattern|].
    destruct Hpattern as [Hd|Ho]; [left|right];
      [exact (includes_append_r "https://www.olx.pl" href _ Hd)
      |exact (includes_append_r "https://www.olx.pl" href _ Ho)].
  - intros p. destruct (JS.matchDigits _); [|discriminate].
    intros [= <-]. apply parseDigits_nonneg. lia.
Qed.

Lemma otodomListing_fields (card : Element) (room : Room) :
  otodomListing card = Some room ->
  JS.startsWith (url room) "http" = true /\
  JS.includes (url room) "/oferta/" = true /\
  (forall p, price room = Some p -> 0 <= p) /\
  (forall a, area room = Some a -> 0 <= a) /\
  currency room = "PLN" /\ source room = otodom.
Proof.
  unfold otodomListing. cbv zeta.
  destruct (orEl _ _) as [linkEl|]; [|discriminate].
  set (href := JS.orElseStr (getAttribute linkEl "href") "").
  destruct (JS.includes href "/oferta/") eqn:Hdetail; [|discriminate].
  cbn [negb]. intros [= <-]. cbn [url price area currency source].
  repeat split.
  - destruct (JS.startsWith href "http") eqn:Habs; [exact Habs|reflexivity].
  - destruct (JS.startsWith href "http");
      [exact Hdetail|].
    exact (includes_append_r "https://www.otodom.pl" href _ Hdetail).
  - intros p. destruct (JS.truthyStr (JS.matchPriceZl _)); [|discriminate].
    intros [= <-]. apply parseDigits_nonneg. lia.
  - intros a. destruct (JS.truthyStr (JS.matchDigits _)); [|discriminate].
    intros [= <-]. apply parseDigits_nonneg. lia.
Qed.

(** X7. Every room returned by either scraper has an absolute [url] (it
    starts with "http": a relative link is prefixed with the origin of the
    site) that matches the pattern of a listing page: it contains "/d/" or
    "/oferta/" on OLX and "/oferta/" on Otodom. *)
Theorem returned_urls_are_absolute_listing_links (web : Web Element)
    (options : SearchOptions) (rooms : list Room) :
  (resolved (scrapeOlx web options) = Some rooms ->
   Forall (fun room =>
             JS.startsWith (url room) "http" = true /\
             (JS.includes (url room) "/d/" = true \/
              JS.includes (url room) "/oferta/" = true)) rooms) /\
  (resolved (scrapeOtodom web options) = Some rooms ->
   Forall (fun room =>
             JS.startsWith (url room) "http" = true /\
             JS.includes (url room) "/oferta/" = true) rooms).
Proof.
  split; intros Hres; apply Forall_forall; intros room Hin.
  - destruct (olx_origin _ _ _ _ Hres Hin) as (_ & _ & card & _ & _ & _ & Hcard).
    apply olxListing_fields in Hcard. tauto.
  - destruct (otodom_origin _ _ _ _ Hres Hin) as (_ & _ & card & _ & _ & _ & Hcard).
    apply otodomListing_fields in Hcard. tauto.
Qed.

(** X8. Every room returned by a scraper carries the tag of its source and
    the currency "PLN"; a price, when present, is not negative; an OLX
    room has no area, and an Otodom area, when present, is not negative. *)
Theorem returned_rooms_are_normalized (web : Web Element)
    (options : SearchOptions) (rooms : list Room) :
  (resolved (scrapeOlx web options) = Some rooms ->
   Forall (fun room =>
             source room = olx /\ currency room = "PLN" /\
             (forall p, price room = Some p -> 0 <= p) /\
             area room = None) rooms) /\
  (resolved (scrapeOtodom web options) = Some rooms ->
   Forall (fun room =>
             source room = otodom /\ currency room = "PLN" /\
             (forall p, price room = Some p -> 0 <= p) /\
             (forall a, area room = Some a -> 0 <= a)) rooms).
Proof.
  split; intros Hres; apply Forall_forall; intros room Hin.
  - destruct (olx_origin _ _ _ _ Hres Hin) as (_ & _ & card & _ & _ & _ & Hcard).
    apply olxListing_fields in Hcard. tauto.
  - destruct (otodom_origin _ _ _ _ Hres Hin) as (_ & _ & card & _ & _ & _ & Hcard).
    apply otodomListing_fields in Hcard. tauto.
Qed.

End Extraction.

(** ** The sorted output, the aggregation and the command line *)

Lemma StronglySorted_app_intro {A : Type} (R : A -> A -> Prop) (l r : list A) :
  StronglySorted R l -> StronglySorted R r ->
  (forall a b, In a l -> In b r -> R a b) ->
  StronglySorted R (List.app l r).
Proof.
  intros Hl Hr Hlr. induction l as [|x l IH]; [exact Hr|].
  apply StronglySorted_inv in Hl as [Hl Hx]. cbn. constructor.
  - apply IH; [exact Hl|]. intros a b Ha Hb. apply Hlr; [right|]; assumption.
  - apply Forall_app. split; [exact Hx|].
    apply Forall_forall. intros b Hb. apply Hlr; [left; reflexivity|exact Hb].
Qed.

Lemma priceOrder_unpriced (a b : Room) : price b = None -> priceOrder a b.
Proof.
  unfold priceOrder, priceLeb. intros ->. destruct (price a); reflexivity.
Qed.

Lemma unpriced_ordered (rooms : list Room) :
  StronglySorted priceOrder (filter (hasPrice None) rooms).
Proof.
  induction rooms as [|r rooms IH]; cbn; [constructor|].
  destruct (hasPrice None r) eqn:Hr; [|exact IH].
  constructor; [exact IH|].
  apply Forall_forall. intros b Hb. apply priceOrder_unpriced.
  apply filter_In in Hb as [_ Hb]. unfold hasPrice in Hb.
  destruct (price b); [discriminate|reflexivity].
Qed.

Lemma sortRooms_Permutation (rooms : list Room) : Permutation (sortRooms rooms) rooms.
Proof. apply (sort_Permutation compareRooms priceLeb compareRooms_moves_ahead). Qed.

Lemma filter_priced_price (x : Z) (rooms : list Room) :
  filter (hasPrice (Some x)) (filter priced rooms) = filter (hasPrice (Some x)) rooms.
Proof.
  induction rooms as [|r rooms IH]; [reflexivity|].
  cbn [filter]. destruct (priced r) eqn:Hp.
  - cbn [filter]. destruct (hasPrice (Some x) r); rewrite IH; reflexivity.
  - assert (Hr : hasPrice (Some x) r = false)
      by (unfold priced, hasPrice in *; destruct (price r); [discriminate|reflexivity]).
    rewrite Hr. exact IH.
Qed.

(** X9. The sorted output is the priced rooms, sorted, followed by the
    rooms without a price in exactly their input order. *)
Theorem sortRooms_priced_then_unpriced (rooms : list Room) :
  sortRooms rooms =
  List.app (sortRooms (filter priced rooms)) (filter (hasPrice None) rooms).
Proof.
  symmetry. apply sortRooms_unique.
  - apply StronglySorted_app_intro;
      [apply sortRooms_ordered|apply unpriced_ordered|].
    intros a b _ Hb. apply priceOrder_unpriced.
    apply filter_In in Hb as [_ Hb]. unfold hasPrice in Hb.
    destruct (price b); [discriminate|reflexivity].
  - intros p. rewrite filter_app, sortRooms_keeps_each_price.
    destruct p as [x|].
    + rewrite (filter_none (hasPrice (Some x)) (filter (hasPrice None) rooms)).
      * rewrite app_nil_r. apply filter_priced_price.
      * intros a Ha. apply filter_In in Ha as [_ Ha]. unfold hasPrice in *.
        destruct (price a); [discriminate|reflexivity].
    + rewrite (filter_none (hasPrice None) (filter priced rooms)).
      * cbn [List.app]. apply filter_twice.
      * intros a Ha. apply filter_In in Ha as [_ Ha]. unfold hasPrice, priced in *.
        destruct (price a); [reflexivity|discriminate].
Qed.

Lemma parseIntArg_sign (text : string) :
  JS.startsWith (JS.trimStart text) "-" = false ->
  match JS.parseIntArg text with
  | JS.Int z => 0 <= z
  | JS.NaN => True
  end.
Proof.
  unfold JS.parseIntArg, JS.startsWith.
  destruct (JS.trimStart text) as [|c r]; [intros _; exact I|].
  destruct (Ascii.eqb_spec c "-") as [->|Hminus]; [cbn; destruct r; discriminate|].
  intros _.
  destruct (Ascii.eqb c "+");
    match goal with
    | |- context [(0 <? JS.digitWidth ?d)%nat] =>
        destruct (0 <? JS.digitWidth d)%nat; [apply parseDigits_nonneg; lia|exact I]
    end.
Qed.

(** X10. Whatever the text of [--pages], the page budget is at most 10;
    and it is at least 1 unless the text, after leading white space,
    starts with a minus sign: text that is empty, not a number or zero
    still gives a budget between 1 and 10. *)
Theorem cli_page_budget (values : Cli.values) :
  pagesToScrape (cliOptions values) <= 10 /\
  ((forall text, Cli.pages values = Some text ->
                 JS.startsWith (JS.trimStart text) "-" = false) ->
   1 <= pagesToScrape (cliOptions values)).
Proof.
  unfold pagesToScrape, MAX_PAGES. split; [lia|].
  intros Hsign. unfold cliOptions. cbn [pages].
  destruct (JS.truthyStr (Cli.pages values)) as [text|] eqn:Htext; [|cbn; lia].
  assert (Hpages : Cli.pages values = Some text).
  { destruct (Cli.pages values) as [t|]; cbn in Htext; [|discriminate].
    destruct (String.eqb t ""); congruence. }
  pose proof (parseIntArg_sign text (Hsign text Hpages)) as Hz.
  unfold JS.orElse, JS.truthy.
  destruct (JS.parseIntArg text) as [|z]; [lia|].
  destruct (Z.eqb_spec z 0); lia.
Qed.

Section Aggregation.

Context {Element : Type} `{Dom Element} `{CaseMapping}.

Lemma olx_rooms_tagged (web : Web Element) (options : SearchOptions)
    (rooms : list Room) :
  resolved (scrapeOlx web options) = Some rooms ->
  Forall (fun room => source room = olx) rooms.
Proof.
  intros Hres. apply Forall_forall. intros room Hin.
  destruct (olx_origin _ _ _ _ Hres Hin) as (_ & _ & card & _ & _ & _ & Hcard).
  apply olxListing_fields in Hcard. tauto.
Qed.

Lemma otodom_rooms_tagged (web : Web Element) (options : SearchOptions)
    (rooms : list Room) :
  resolved (scrapeOtodom web options) = Some rooms ->
  Forall (fun room => source room = otodom) rooms.
Proof.
  intros Hres. apply Forall_forall. intros room Hin.
  destruct (otodom_origin _ _ _ _ Hres Hin) as (_ & _ & card & _ & _ & _ & Hcard).
  apply otodomListing_fields in Hcard. tauto.
Qed.

(** X11. The aggregation fails exactly when a requested scraper rejects.
    Otherwise its output is in price order and holds exactly the rooms of
    the requested scrapers (OLX for "all" and "olx", Otodom for "all" and
    "otodom"), each with the tag of its source: a source that is not asked
    for contributes no room, and an unknown source name gives no rooms. *)
Theorem aggregate_outcome (chosen : string) (web : Web Element)
    (options : SearchOptions) :
  match aggregate chosen web options with
  | Some out =>
      StronglySorted priceOrder out /\
      exists olxRooms otodomRooms,
        Permutation out (List.app olxRooms otodomRooms) /\
        (if String.eqb chosen "all" || String.eqb chosen "olx"
         then resolved (scrapeOlx web options) = Some olxRooms
         else olxRooms = []) /\
        (if String.eqb chosen "all" || String.eqb chosen "otodom"
         then resolved (scrapeOtodom web options) = Some otodomRooms
         else otodomRooms = []) /\
        Forall (fun room => source room = olx) olxRooms /\
        Forall (fun room => source room = otodom) otodomRooms
  | None =>
      ((String.eqb chosen "all" || String.eqb chosen "olx" = true) /\
       resolved (scrapeOlx web options) = None) \/
      ((String.eqb chosen "all" || String.eqb chosen "otodom" = true) /\
       resolved (scrapeOtodom web options) = None)
  end.
Proof.
  unfold aggregate. cbv zeta.
  destruct (String.eqb chosen "all" || String.eqb chosen "olx") eqn:Holx;
    destruct (String.eqb chosen "all" || String.eqb chosen "otodom") eqn:Hotodom;
    try (destruct (resolved (scrapeOlx web options)) as [olxRooms|] eqn:Ha;
         [|left; split; reflexivity]);
    try (destruct (resolved (scrapeOtodom web options)) as [otodomRooms|] eqn:Hb;
         [|right; split; reflexivity]);
    (split; [apply sortRooms_ordered|]).
  - exists olxRooms, otodomRooms.
    repeat split; [apply sortRooms_Permutation|apply (olx_rooms_tagged _ _ _ Ha)
                  |apply (otodom_rooms_tagged _ _ _ Hb)].
  - exists olxRooms, [].
    repeat split; [apply sortRooms_Permutation|apply (olx_rooms_tagged _ _ _ Ha)
                  |constructor].
  - exists [], otodomRooms.
    repeat split; [apply sortRooms_Permutation|constructor
                  |apply (otodom_rooms_tagged _ _ _ Hb)].
  - exists [], []. repeat split; [apply sortRooms_Permutation|constructor|constructor].
Qed.

Lemma aggregate_rooms (chosen : string) (web : Web Element)
    (options : SearchOptions) (out : list Room) (room : Room) :
  aggregate chosen web options = Some out ->
  In room out ->
  exists site rooms,
    resolved (scrape site web options) = Some rooms /\ In room rooms.
Proof.
  unfold aggregate. cbv zeta. intros Hout Hin.
  destruct (if String.eqb chosen "all" || String.eqb chosen "olx"
            then resolved (scrapeOlx web options) else Some [])
    as [olxRooms|] eqn:Ha; [|discriminate].
  destruct (if String.eqb chosen "all" || String.eqb chosen "otodom"
            then resolved (scrapeOtodom web options) else Some [])
    as [otodomRooms|] eqn:Hb; [|discriminate].
  injection Hout as <-.
  apply (Permutation_in _ (sortRooms_Permutation _)) in Hin.
  cbn [List.app] in Hin. apply in_app_or in Hin as [Hin|Hin].
  - destruct (String.eqb chosen "all" || String.eqb chosen "olx").
    + exists olxSite, olxRooms. auto.
    + injection Ha as <-. contradiction.
  - destruct (String.eqb chosen "all" || String.eqb chosen "otodom").
    + exists otodomSite, otodomRooms. auto.
    + injection Hb as <-. contradiction.
Qed.

Lemma aggregate_ordered (chosen : string) (web : Web Element)
    (options : SearchOptions) (out : list Room) :
  aggregate chosen web options = Some out -> StronglySorted priceOrder out.
Proof.
  unfold aggregate. cbv zeta.
  destruct (if String.eqb chosen "all" || String.eqb chosen "olx"
            then resolved (scrapeOlx web options) else Some []); [|discriminate].
  destruct (if String.eqb chosen "all" || String.eqb chosen "otodom"
            then resolved (scrapeOtodom web options) else Some []); [|discriminate].
  intros [= <-]. apply sortRooms_ordered.
Qed.

(** X12. From the command line to the output: when the text of
    [--maxPrice] parses to a non-zero integer [P], every room [main]
    outputs has no price or a price of at most [P], and the output is in
    price order, whichever sources were asked for. *)
Theorem main_output_within_ceiling (values : Cli.values) (web : Web Element)
    (text : string) (P : Z) (out : list Room) :
  Cli.maxPrice values = Some text ->
  JS.parseIntArg text = JS.Int P ->
  P <> 0 ->
  main values web = Some out ->
  Forall (withinCeiling P) out /\ StronglySorted priceOrder out.
Proof.
  intros Htext Hparse HP Hmain.
  assert (Hceiling : JS.truthy (maxPrice (cliOptions values)) = Some P).
  { unfold cliOptions. cbn [maxPrice]. rewrite Htext.
    rewrite truthyStr_Some.
    - rewrite Hparse. apply truthy_Int. exact HP.
    - intros ->. discriminate. }
  unfold main in Hmain.
  destruct (Cli.source values) as [chosen|].
  - split.
    + apply Forall_forall. intros room Hin.
      destruct (aggregate_rooms _ _ _ _ _ Hmain Hin) as (site & rooms & Hres & Hroom).
      rewrite (scrape_resolved _ _ _ _ Hres) in Hroom.
      exact (applyFilters_ceiling _ P _ room Hceiling Hroom).
    + exact (aggregate_ordered _ _ _ _ Hmain).
  - injection Hmain as <-. split; constructor.
Qed.

End Aggregation.

(** ** [displayResults] *)



(** ** Cards and locations *)

Lemma prefix_nil (s : string) : String.prefix "" s = true.
Proof. destruct s; reflexivity. Qed.

Lemma prefix_append (t a rest : string) :
  String.prefix t a = true -> String.prefix t (a ++ rest) = true.
Proof.
  revert a. induction t as [|x t IH]; intros a Ht; [apply prefix_nil|].
  destruct a as [|y a]; [discriminate|]. cbn in Ht |- *.
  destruct (ascii_dec x y); [apply IH; exact Ht|discriminate].
Qed.

Lemma includes_suffix (c : ascii) (s t : string) :
  JS.includes s t = true -> JS.includes (String c s) t = true.
Proof. intros Hs. cbn [JS.includes]. rewrite Hs. apply orb_true_r. Qed.

Lemma includes_append_l (a rest t : string) :
  JS.includes a t = true -> JS.includes (a ++ rest) t = true.
Proof.
  induction a as [|c a IH]; intros Ha.
  - cbn in Ha. rewrite orb_false_r in Ha.
    destruct t as [|x t]; [|discriminate].
    destruct rest; reflexivity.
  - cbn [JS.includes append] in Ha |- *.
    apply orb_true_iff in Ha as [Ha|Ha]; apply orb_true_iff.
    + left. exact (prefix_append t (String c a) rest Ha).
    + right. apply IH. exact Ha.
Qed.

Lemma trimStartFrom_includes (t s : string) (pending : nat) :
  JS.includes (JS.trimStartFrom pending s) t = true -> JS.includes s t = true.
Proof.
  revert pending. induction s as [|c s IH]; intros pending; [auto|].
  cbn [JS.trimStartFrom].
  destruct pending as [|pending]; [destruct (JS.wsWidth (String c s))|];
    auto using includes_suffix; intros Hin; apply includes_suffix; eapply IH; exact Hin.
Qed.

Lemma trimEnd_prefix (s : string) : exists rest, s = JS.trimEnd s ++ rest.
Proof.
  induction s as [|c s (rest & IH)]; [exists ""; reflexivity|].
  cbn [JS.trimEnd]. destruct (String.eqb (JS.trimStart (String c s)) "").
  - exists (String c s). reflexivity.
  - exists rest. cbn. f_equal. exact IH.
Qed.

(** What [trim] returns is a part of the text. *)
Lemma trim_includes (s t : string) :
  JS.includes (JS.trim s) t = true -> JS.includes s t = true.
Proof.
  unfold JS.trim, JS.trimStart. intros Hin.
  apply (trimStartFrom_includes t s 0).
  destruct (trimEnd_prefix (JS.trimStartFrom 0 s)) as (rest & Heq).
  rewrite Heq. apply includes_append_l. exact Hin.
Qed.

(** The text before the first separator holds no separator. *)
Lemma splitHead_excludes (sep s : string) :
  sep <> "" -> JS.includes (JS.splitHead sep s) sep = false.
Proof.
  intros Hsep. induction s as [|c s IH].
  - destruct sep; [contradiction|reflexivity].
  - cbn [JS.splitHead]. destruct (String.prefix sep (String c s)) eqn:Hhere.
    + destruct sep; [contradiction|reflexivity].
    + cbn [JS.includes]. rewrite IH, orb_false_r.
      destruct (String.prefix sep (String c (JS.splitHead sep s))) eqn:Hcut;
        [|reflexivity].
      assert (Hpart : exists rest, s = JS.splitHead sep s ++ rest).
      { clear. induction s as [|x s (rest & IH)]; cbn [JS.splitHead].
        - destruct (String.prefix sep ""); exists ""; reflexivity.
        - destruct (String.prefix sep (String x s)).
          + exists (String x s). reflexivity.
          + exists rest. cbn. f_equal. exact IH. }
      destruct Hpart as (rest & Hpart).
      pose proof (prefix_append sep (String c (JS.splitHead sep s)) rest Hcut) as Hfull.
      cbn [append] in Hfull. rewrite <- Hpart in Hfull. congruence.
Qed.

Section CardsAndLocations.

Context {Element : Type} `{Dom Element} `{CaseMapping}.

(** X14. The cards of a page are the elements found by the first selector,
    in the order of the list, that finds any: selectors before it found
    nothing and selectors after it are not consulted; when no selector
    finds an element there are no cards. *)
Theorem cards_come_from_first_matching_selector (document : Document Element)
    (before : list string) (selector : string) (after : list string) :
  Forall (fun s => document s = []) before ->
  (document selector <> [] ->
   findCards document (List.app before (selector :: after)) = document selector) /\
  findCards document before = [].
Proof.
  intros Hbefore. induction Hbefore as [|s before Hs _ [IHhit IHnone]]; cbn [List.app findCards].
  - split; [|reflexivity]. intros Hhit.
    destruct (document selector); [contradiction|reflexivity].
  - rewrite Hs. split; assumption.
Qed.

Lemma acceptedDistrict_guard (m : option string) (district : string) :
  acceptedDistrict m = Some district ->
  JS.includes district "zł" = false /\ JS.includes district "Cena" = false.
Proof.
  unfold acceptedDistrict.
  destruct (JS.truthyStr m) as [m1|]; [|discriminate].
  destruct (JS.includes m1 "zł") eqn:Hzl, (JS.includes m1 "Cena") eqn:Hcena;
    cbn; try discriminate.
  intros [= <-]. auto.
Qed.

(** X15. The location of every room returned by [scrapeOtodom] is
    "Warszawa" alone or "Warszawa, " and a district that contains neither
    the currency marker "zł" nor "Cena": a match that ran into the price
    is not taken for a district. *)
Theorem otodom_location_is_not_a_price (web : Web Element)
    (options : SearchOptions) (rooms : list Room) :
  resolved (scrapeOtodom web options) = Some rooms ->
  Forall (fun room =>
            location room = "Warszawa" \/
            exists district,
              location room = "Warszawa, " ++ district /\
              JS.includes district "zł" = false /\
              JS.includes district "Cena" = false) rooms.
Proof.
  intros Hres. apply Forall_forall. intros room Hin.
  destruct (otodom_origin _ _ _ _ Hres Hin) as (_ & _ & card & _ & _ & _ & Hcard).
  apply otodomListing_texts in Hcard as (_ & -> & _).
  unfold otodomLocation.
  destruct (orEl _ _) as [district|] eqn:Hd; [right|left; reflexivity].
  exists district. split; [reflexivity|].
  unfold orEl in Hd.
  destruct (acceptedDistrict (JS.matchDistrict true _)) as [d1|] eqn:H1.
  - injection Hd as <-. exact (acceptedDistrict_guard _ _ H1).
  - exact (acceptedDistrict_guard _ _ Hd).
Qed.

(** X16. The location of every room returned by [scrapeOlx] holds no
    " - ": what follows the first " - " of the extracted text (the date of
    the listing) is cut off. *)
Theorem olx_location_has_no_date_part (web : Web Element)
    (options : SearchOptions) (rooms : list Room) :
  resolved (scrapeOlx web options) = Some rooms ->
  Forall (fun room => JS.includes (location room) " - " = false) rooms.
Proof.
  intros Hres. apply Forall_forall. intros room Hin.
  destruct (olx_origin _ _ _ _ Hres Hin) as (_ & _ & card & _ & _ & _ & Hcard).
  apply olxListing_texts in Hcard as (_ & -> & _).
  unfold JS.orElseStr.
  destruct (JS.truthyStr (olxLocationText (olxContainer card))) as [text|] eqn:Htext;
    [|reflexivity].
  apply truthyStr_inv in Htext as [Htext _].
  unfold olxLocationText in Htext. cbv zeta in Htext.
  destruct (chain _ textContent) as [raw|]; [|discriminate].
  injection Htext as <-.
  destruct (JS.includes (JS.trim (JS.splitHead " - " raw)) " - ") eqn:Hin'; [|reflexivity].
  apply trim_includes in Hin'.
  rewrite splitHead_excludes in Hin' by discriminate. discriminate.
Qed.

End CardsAndLocations.

(** * The claims on concrete runs *)

Import Fixture.

(** The scenario of the specification: a ceiling of 2000 over rooms at
    1500, without a price and at 2500 gives the room at 1500 and then the
    room without a price. *)
Example aggregate_ex :
  aggregate "olx" olxDemo (mkOptions (Some (JS.Int 2000)) None (Some (JS.Int 2)))
  = Some [olxRoomA; olxRoomB].
Proof. vm_compute. reflexivity. Qed.

Example sortRooms_ex :
  sortRooms [olxRoomB; olxRoomC; otodomRoom2;
             olxRoomA; otodomRoom1]
  = [otodomRoom1; olxRoomA; olxRoomC;
     olxRoomB; otodomRoom2].
Proof. vm_compute. reflexivity. Qed.

(** A ceiling of 2000 over two OLX pages keeps the room at 1500 and the
    room without a price, and drops the studio at 2500. *)
Lemma price_ceiling_respected_witness :
  let options := mkOptions (Some (JS.Int 2000)) None (Some (JS.Int 2)) in
  maxPrice options = Some (JS.Int 2000) /\
  2000 <> 0 /\
  resolved (scrapeOlx olxDemo options) = Some [olxRoomA; olxRoomB] /\
  Forall (withinCeiling 2000) [olxRoomA; olxRoomB].
Proof.
  cbv zeta.
  assert (Hrun : resolved (scrapeOlx olxDemo
                             (mkOptions (Some (JS.Int 2000)) None (Some (JS.Int 2))))
                 = Some [olxRoomA; olxRoomB]) by (vm_compute; reflexivity).
  refine (conj eq_refl (conj _ (conj Hrun _))); [lia|].
  refine (proj1 (price_ceiling_respected olxDemo
                   (mkOptions (Some (JS.Int 2000)) None (Some (JS.Int 2)))
                   2000 _ eq_refl _ (or_introl Hrun))).
  lia.
Defined.

(** C1 as stated fails for [maxPrice = 0]: the ceiling is supplied, no
    filter is applied, and rooms at 1500 and 2500 are returned. *)
Lemma price_ceiling_zero_counterexample :
  let options := mkOptions (Some (JS.Int 0)) None (Some (JS.Int 2)) in
  maxPrice options = Some (JS.Int 0) /\
  resolved (scrapeOlx olxDemo options) = Some [olxRoomA; olxRoomB; olxRoomC] /\
  ~ Forall (withinCeiling 0) [olxRoomA; olxRoomB; olxRoomC].
Proof.
  cbv zeta. refine (conj eq_refl (conj _ _)); [vm_compute; reflexivity|].
  intros Hall. inversion_clear Hall as [|? ? Ha _].
  unfold withinCeiling in Ha. cbn in Ha. lia.
Qed.

(** [--pages 0] falls back to the default of 5; [--pages=-7] stays at -7
    and nothing is fetched. *)
Lemma page_budget_in_range_witness :
  let options := mkOptions None None (Some (JS.Int 0)) in
  let negative := mkOptions None None (Some (JS.Int (-7))) in
  (notNegative (pages options) /\
   1 <= pagesToScrape options <= 10 /\
   (1 <= List.length (navigations (scrapeOlx olxDemo options)) <= 10)%nat) /\
  (pages negative = Some (JS.Int (-7)) /\
   -7 < 0 /\
   pagesToScrape negative = -7 /\
   navigations (scrapeOtodom otodomDemo negative) = []).
Proof.
  cbv zeta. split.
  - assert (Hpages : notNegative (pages (mkOptions None None (Some (JS.Int 0)))))
      by (cbn; lia).
    destruct (proj1 (page_budget_in_range (Element := Node) _) Hpages)
      as [Hrange Hruns].
    exact (conj Hpages (conj Hrange (Hruns olxDemo _ (or_introl eq_refl)))).
  - assert (Hneg : -7 < 0) by lia.
    destruct (proj2 (page_budget_in_range
                       (Element := Node) (mkOptions None None (Some (JS.Int (-7)))))
                    (-7) eq_refl Hneg) as [Hbudget Hruns].
    exact (conj eq_refl (conj Hneg (conj Hbudget
             (Hruns otodomDemo _ (or_intror eq_refl))))).
Defined.

(** C3 as stated fails for a negative [pages]: the budget stays negative
    and the page loop of each scraper runs no iteration. *)
Lemma page_budget_negative_counterexample :
  let options := mkOptions None None (Some (JS.Int (-3))) in
  pagesToScrape options = -3 /\
  ~ (1 <= pagesToScrape options <= 10) /\
  navigations (scrapeOlx olxDemo options) = [] /\
  navigations (scrapeOtodom otodomDemo options) = [].
Proof.
  cbv zeta. refine (conj eq_refl (conj _ (conj _ _))); try (vm_compute; reflexivity).
  vm_compute. intros [Hlow _]. apply Hlow. reflexivity.
Qed.

(** The room on both OLX pages is returned once, where it was first seen. *)
Lemma crawl_deduplicates_by_url_witness :
  let options := mkOptions None None (Some (JS.Int 2)) in
  resolved (scrapeOlx olxDemo options) = Some [olxRoomA; olxRoomB; olxRoomC] /\
  NoDup (map url [olxRoomA; olxRoomB; olxRoomC]) /\
  [olxRoomA; olxRoomB; olxRoomC]
  = applyFilters options (firstSeen (crawled olxSite olxDemo options)).
Proof.
  cbv zeta.
  assert (Hrun : resolved (scrapeOlx olxDemo (mkOptions None None (Some (JS.Int 2))))
                 = Some [olxRoomA; olxRoomB; olxRoomC]) by (vm_compute; reflexivity).
  split; [exact Hrun|].
  exact (proj1 (crawl_deduplicates_by_url olxDemo _ _) Hrun).
Defined.

(** On a site that always offers a next page a budget of 3 ends the crawl
    after 3 navigations. *)
Lemma fetches_within_budget_witness :
  let options := mkOptions None None (Some (JS.Int 3)) in
  (forall pageUrl, exists document,
      endless pageUrl = Some document /\ hasNextPage olxSite document = true /\
      (stopsOnEmptyPage (Element := Node) olxSite = true ->
       extractListings olxSite document <> [])) /\
  Z.of_nat (List.length (navigations (crawl olxSite endless options 3 1 []))) = Z.max 0 3.
Proof.
  cbv zeta.
  assert (Hnext : forall pageUrl, exists document,
             endless pageUrl = Some document /\ hasNextPage olxSite document = true /\
             (stopsOnEmptyPage (Element := Node) olxSite = true ->
              extractListings olxSite document <> [])).
  { intros pageUrl. eexists. split; [reflexivity|]. split; [reflexivity|discriminate]. }
  split; [exact Hnext|].
  exact (proj2 (proj2 (proj1 (fetches_within_budget endless _ 3) olxSite)) Hnext).
Defined.

(** C6 as stated fails for [maxPrice = 0]: the option is present and no
    price filter is in the URL of either scraper, on page 1 or later. *)
Lemma page_url_zero_price_counterexample :
  let options := mkOptions (Some (JS.Int 0)) None None in
  maxPrice options <> None /\
  buildPageUrl (Element := Node) olxSite options 1
  = "https://www.olx.pl/nieruchomosci/stancje-pokoje/warszawa/" /\
  buildPageUrl (Element := Node) olxSite options 2
  = "https://www.olx.pl/nieruchomosci/stancje-pokoje/warszawa/?page=2" /\
  buildPageUrl (Element := Node) otodomSite options 1
  = "https://www.otodom.pl/pl/wyniki/wynajem/pokoj/mazowieckie/warszawa/warszawa/warszawa" /\
  JS.includes (buildPageUrl (Element := Node) otodomSite options 2) "priceMax" = false.
Proof.
  cbv zeta.
  refine (conj _ (conj _ (conj _ (conj _ _)))); try (vm_compute; reflexivity).
  discriminate.
Qed.

(** The Otodom card without a title element text gets the defaults. *)
Lemma title_and_location_never_empty_witness :
  let options := mkOptions None None None in
  resolved (scrapeOtodom otodomDemo options) = Some [otodomRoom1; otodomRoom2] /\
  Forall (fun room => title room <> "" /\ location room <> "")
         [otodomRoom1; otodomRoom2].
Proof.
  cbv zeta.
  assert (Hrun : resolved (scrapeOtodom otodomDemo (mkOptions None None None))
                 = Some [otodomRoom1; otodomRoom2]) by (vm_compute; reflexivity).
  split; [exact Hrun|].
  exact (proj1 (title_and_location_never_empty otodomDemo _ _) (or_intror Hrun)).
Defined.

(** Asking for single rooms keeps the one title that says so. *)
Lemma room_type_filter_respected_witness :
  let options := mkOptions None (Some "single") (Some (JS.Int 2)) in
  In "single" roomTypes /\
  roomType options = Some "single" /\
  resolved (scrapeOlx olxDemo options) = Some [olxRoomA] /\
  Forall (titleMatches "single") [olxRoomA].
Proof.
  cbv zeta.
  assert (Hrun : resolved (scrapeOlx olxDemo
                             (mkOptions None (Some "single") (Some (JS.Int 2))))
                 = Some [olxRoomA]) by (vm_compute; reflexivity).
  assert (Hin : In "single" roomTypes) by (left; reflexivity).
  refine (conj Hin (conj eq_refl (conj Hrun _))).
  exact (room_type_filter_respected olxDemo
           (mkOptions None (Some "single") (Some (JS.Int 2)))
           "single" _ Hin eq_refl (or_introl Hrun)).
Defined.

(** The relative thumbnail of the first OLX card is what the room stores. *)
Lemma image_url_is_the_src_attribute_witness :
  let options := mkOptions None None (Some (JS.Int 1)) in
  resolved (scrapeOlx olxDemo options) = Some [olxRoomA; olxRoomB] /\
  In olxRoomA [olxRoomA; olxRoomB] /\
  imageUrl olxRoomA = Some "/img/a.jpg" /\
  exists pageUrl document card,
    In pageUrl (navigations (scrapeOlx olxDemo options)) /\
    olxDemo pageUrl = Some document /\
    In card (findCards document olxSelectors) /\
    olxListing card = Some olxRoomA /\
    thumbnailSrc (olxContainer card) = Some "/img/a.jpg".
Proof.
  cbv zeta.
  assert (Hrun : resolved (scrapeOlx olxDemo (mkOptions None None (Some (JS.Int 1))))
                 = Some [olxRoomA; olxRoomB]) by (vm_compute; reflexivity).
  assert (Hin : In olxRoomA [olxRoomA; olxRoomB]) by (left; reflexivity).
  refine (conj Hrun (conj Hin (conj eq_refl _))).
  exact (proj2 (proj1 (image_url_is_the_src_attribute olxDemo _ _) Hrun
                  olxRoomA "/img/a.jpg" Hin eq_refl)).
Defined.

(** C9 as stated fails on a relative [src]: the room stores it as it is,
    and it does not start with "http" as a resolved reference would. *)
Lemma image_url_relative_counterexample :
  let options := mkOptions None None (Some (JS.Int 1)) in
  let card := olxCard "/d/oferta/a.html" "  Pokój SINGLE " "1 500 zł"
                      "Warszawa, Wola - dzisiaj" "/img/a.jpg" in
  thumbnailSrc (olxContainer card) = Some "/img/a.jpg" /\
  olxListing card = Some olxRoomA /\
  resolved (scrapeOlx olxDemo options) = Some [olxRoomA; olxRoomB] /\
  imageUrl olxRoomA = Some "/img/a.jpg" /\
  JS.startsWith "/img/a.jpg" "http" = false.
Proof.
  cbv zeta.
  refine (conj _ (conj _ (conj _ (conj _ _)))); vm_compute; reflexivity.
Qed.

(** A room type of "loft" is outside the closed set: nothing is returned. *)
Lemma unknown_room_type_returns_nothing_witness :
  let options := mkOptions None (Some "loft") (Some (JS.Int 2)) in
  ~ In "loft" roomTypes /\
  "loft" <> "" /\
  roomType options = Some "loft" /\
  resolved (scrapeOlx olxDemo options) = Some [] /\
  getRoomTypeKeywords "loft" = [] /\
  @nil Room = [].
Proof.
  cbv zeta.
  assert (Hrun : resolved (scrapeOlx olxDemo
                             (mkOptions None (Some "loft") (Some (JS.Int 2))))
                 = Some []) by (vm_compute; reflexivity).
  assert (Hout : ~ In "loft" roomTypes)
    by (cbn; intros [H|[H|[H|[H|[]]]]]; discriminate).
  assert (Hne : "loft" <> "") by discriminate.
  refine (conj Hout (conj Hne (conj eq_refl (conj Hrun _)))).
  exact (unknown_room_type_returns_nothing olxDemo
           (mkOptions None (Some "loft") (Some (JS.Int 2)))
           "loft" [] Hout Hne eq_refl (or_introl Hrun)).
Defined.

(** C10 as stated fails for the empty string: it is outside the closed
    set and has no keywords, but the filter is not applied and the rooms
    of the pages are returned. *)
Lemma empty_room_type_counterexample :
  let options := mkOptions None (Some "") (Some (JS.Int 2)) in
  ~ In "" roomTypes /\
  getRoomTypeKeywords "" = [] /\
  resolved (scrapeOlx olxDemo options) = Some [olxRoomA; olxRoomB; olxRoomC] /\
  resolved (scrapeOtodom otodomDemo options) = Some [otodomRoom1; otodomRoom2].
Proof.
  cbv zeta. refine (conj _ (conj _ (conj _ _))); try (vm_compute; reflexivity).
  cbn. intros [H|[H|[H|[H|[]]]]]; discriminate.
Qed.

(** * The further properties on concrete runs *)

(** With a budget of 5, a second page without a next-page control ends the
    OLX crawl after two navigations. *)
Lemma crawl_ends_at_first_ending_page_witness :
  let options := mkOptions None None (Some (JS.Int 5)) in
  1 <= 2 <= pagesToScrape options /\
  (forall j, 1 <= j < 2 -> continues olxSite olxStopsAtTwo options j) /\
  ends olxSite olxStopsAtTwo options 2 /\
  navigations (scrapeOlx olxStopsAtTwo options) =
  map (buildPageUrl olxSite options) (pagesFrom 1 (Z.to_nat 2)).
Proof.
  cbv zeta.
  assert (Hk : 1 <= 2 <= pagesToScrape (mkOptions None None (Some (JS.Int 5))))
    by (vm_compute; split; discriminate).
  assert (Hgo : forall j, 1 <= j < 2 ->
                continues olxSite olxStopsAtTwo (mkOptions None None (Some (JS.Int 5))) j).
  { intros j Hj. assert (j = 1) as -> by lia. exists olxFirstPage.
    split; [vm_compute; reflexivity|]. split; [reflexivity|discriminate]. }
  assert (Hend : ends olxSite olxStopsAtTwo (mkOptions None None (Some (JS.Int 5))) 2)
    by (vm_compute; left; reflexivity).
  refine (conj Hk (conj Hgo (conj Hend _))).
  exact (crawl_ends_at_first_ending_page olxSite olxStopsAtTwo _ 2 Hk Hgo Hend).
Defined.

(** An empty second page ends the Otodom crawl although it offers a next
    page; an empty first page does not keep OLX from page 2. *)
Lemma empty_page_ends_otodom_not_olx_witness :
  let options := mkOptions None None (Some (JS.Int 5)) in
  navigations (scrapeOtodom otodomEmptySecond options) =
    map (buildPageUrl otodomSite options) (pagesFrom 1 (Z.to_nat 2)) /\
  In (buildPageUrl olxSite options (1 + 1)) (navigations (scrapeOlx olxEmptyFirst options)).
Proof.
  cbv zeta. set (options := mkOptions None None (Some (JS.Int 5))).
  assert (Hk : 1 <= 2 <= pagesToScrape options) by (vm_compute; split; discriminate).
  split.
  - refine (proj1 (empty_page_ends_otodom_not_olx otodomEmptySecond options 2)
              otodomEmptyPage Hk _ _ _).
    + intros j Hj. assert (j = 1) as -> by lia. exists otodomFirstPage.
      split; [vm_compute; reflexivity|]. split; [reflexivity|].
      intros _. vm_compute. discriminate.
    + vm_compute. reflexivity.
    + reflexivity.
  - refine (proj2 (empty_page_ends_otodom_not_olx olxEmptyFirst options 1) _ _).
    + vm_compute. split; [discriminate|reflexivity].
    + intros j Hj. assert (j = 1) as -> by lia. exists olxEmptyPage.
      split; [vm_compute; reflexivity|reflexivity].
Defined.

(** The room listed on both OLX pages is a candidate twice and returned
    once. *)
Lemma run_keeps_first_of_each_url_overall_witness :
  let options := mkOptions None None (Some (JS.Int 2)) in
  resolved (scrapeOlx olxDemo options) = Some [olxRoomA; olxRoomB; olxRoomC] /\
  [olxRoomA; olxRoomB; olxRoomC] =
  applyFilters options
    (firstSeen
       (flat_map (fun pageUrl => match olxDemo pageUrl with
                                 | Some document => olxCandidates document
                                 | None => []
                                 end)
                 (navigations (scrapeOlx olxDemo options)))).
Proof.
  cbv zeta.
  assert (Hrun : resolved (scrapeOlx olxDemo (mkOptions None None (Some (JS.Int 2))))
                 = Some [olxRoomA; olxRoomB; olxRoomC]) by (vm_compute; reflexivity).
  split; [exact Hrun|].
  exact (proj1 (run_keeps_first_of_each_url_overall olxDemo _ _) Hrun).
Defined.

(** The relative link of the first OLX card comes back with the origin in
    front. *)
Lemma returned_urls_are_absolute_listing_links_witness :
  let options := mkOptions None None (Some (JS.Int 1)) in
  resolved (scrapeOlx olxDemo options) = Some [olxRoomA; olxRoomB] /\
  Forall (fun room =>
            JS.startsWith (url room) "http" = true /\
            (JS.includes (url room) "/d/" = true \/
             JS.includes (url room) "/oferta/" = true)) [olxRoomA; olxRoomB].
Proof.
  cbv zeta.
  assert (Hrun : resolved (scrapeOlx olxDemo (mkOptions None None (Some (JS.Int 1))))
                 = Some [olxRoomA; olxRoomB]) by (vm_compute; reflexivity).
  split; [exact Hrun|].
  exact (proj1 (returned_urls_are_absolute_listing_links olxDemo _ _) Hrun).
Defined.

Lemma returned_rooms_are_normalized_witness :
  let options := mkOptions None None None in
  resolved (scrapeOtodom otodomDemo options) = Some [otodomRoom1; otodomRoom2] /\
  Forall (fun room =>
            source room = otodom /\ currency room = "PLN" /\
            (forall p, price room = Some p -> 0 <= p) /\
            (forall a, area room = Some a -> 0 <= a)) [otodomRoom1; otodomRoom2].
Proof.
  cbv zeta.
  assert (Hrun : resolved (scrapeOtodom otodomDemo (mkOptions None None None))
                 = Some [otodomRoom1; otodomRoom2]) by (vm_compute; reflexivity).
  split; [exact Hrun|].
  exact (proj2 (returned_rooms_are_normalized otodomDemo _ _) Hrun).
Defined.

(** [--pages abc] gives a budget of at least 1 (the default of 5). *)
Lemma cli_page_budget_witness :
  let values := Cli.mkValues None None (Some "all") (Some "abc") false false in
  (forall text, Cli.pages values = Some text ->
                JS.startsWith (JS.trimStart text) "-" = false) /\
  1 <= pagesToScrape (cliOptions values).
Proof.
  cbv zeta.
  assert (Hsign : forall text,
             Cli.pages (Cli.mkValues None None (Some "all") (Some "abc") false false)
             = Some text ->
             JS.startsWith (JS.trimStart text) "-" = false)
    by (intros text [= <-]; reflexivity).
  split; [exact Hsign|].
  exact (proj2 (cli_page_budget _) Hsign).
Defined.

(** [-p 2000 -s OLX -n 2] over the two OLX pages. *)
Lemma main_output_within_ceiling_witness :
  let values := Cli.mkValues (Some "2000") None (Some "OLX") (Some "2") false false in
  Cli.maxPrice values = Some "2000" /\
  JS.parseIntArg "2000" = JS.Int 2000 /\
  2000 <> 0 /\
  main values olxDemo = Some [olxRoomA; olxRoomB] /\
  Forall (withinCeiling 2000) [olxRoomA; olxRoomB] /\
  StronglySorted priceOrder [olxRoomA; olxRoomB].
Proof.
  cbv zeta.
  assert (Hmain : main (Cli.mkValues (Some "2000") None (Some "OLX") (Some "2") false false)
                       olxDemo
                  = Some [olxRoomA; olxRoomB]) by (vm_compute; reflexivity).
  assert (HP : 2000 <> 0) by lia.
  refine (conj eq_refl (conj eq_refl (conj HP (conj Hmain _)))).
  exact (main_output_within_ceiling
           (Cli.mkValues (Some "2000") None (Some "OLX") (Some "2") false false)
           olxDemo "2000" 2000 _ eq_refl eq_refl HP Hmain).
Defined.

(** The first OLX selector finds nothing on the page, the second finds the
    cards. *)
Lemma cards_come_from_first_matching_selector_witness :
  let first := "[data-testid=" ++ q "listing-grid" ++ "] [data-testid=" ++ q "adCard" ++ "]" in
  let second := "[data-cy=" ++ q "l-card" ++ "]" in
  Forall (fun s => olxFirstPage s = []) [first] /\
  olxFirstPage second <> [] /\
  findCards olxFirstPage olxSelectors = olxFirstPage second.
Proof.
  cbv zeta.
  assert (Hbefore : Forall (fun s => olxFirstPage s = [])
                      ["[data-testid=" ++ q "listing-grid" ++ "] [data-testid="
                       ++ q "adCard" ++ "]"])
    by (constructor; [reflexivity|constructor]).
  assert (Hhit : olxFirstPage ("[data-cy=" ++ q "l-card" ++ "]") <> [])
    by (vm_compute; discriminate).
  refine (conj Hbefore (conj Hhit _)).
  exact (proj1 (cards_come_from_first_matching_selector olxFirstPage _ _
                  [ "div[data-testid=" ++ q "listing-grid" ++ "] > div > div";
                    "a[href*=" ++ q "/d/oferta/" ++ "]" ] Hbefore) Hhit).
Defined.

Lemma otodom_location_is_not_a_price_witness :
  let options := mkOptions None None None in
  resolved (scrapeOtodom otodomDemo options) = Some [otodomRoom1; otodomRoom2] /\
  Forall (fun room =>
            location room = "Warszawa" \/
            exists district,
              location room = "Warszawa, " ++ district /\
              JS.includes district "zł" = false /\
              JS.includes district "Cena" = false) [otodomRoom1; otodomRoom2].
Proof.
  cbv zeta.
  assert (Hrun : resolved (scrapeOtodom otodomDemo (mkOptions None None None))
                 = Some [otodomRoom1; otodomRoom2]) by (vm_compute; reflexivity).
  split; [exact Hrun|].
  exact (otodom_location_is_not_a_price otodomDemo _ _ Hrun).
Defined.

(** "Warszawa, Wola - dzisiaj" is returned as "Warszawa, Wola". *)
Lemma olx_location_has_no_date_part_witness :
  let options := mkOptions None None (Some (JS.Int 1)) in
  resolved (scrapeOlx olxDemo options) = Some [olxRoomA; olxRoomB] /\
  Forall (fun room => JS.includes (location room) " - " = false) [olxRoomA; olxRoomB].
Proof.
  cbv zeta.
  assert (Hrun : resolved (scrapeOlx olxDemo (mkOptions None None (Some (JS.Int 1))))
                 = Some [olxRoomA; olxRoomB]) by (vm_compute; reflexivity).
  split; [exact Hrun|].
  exact (olx_location_has_no_date_part olxDemo _ _ Hrun).
Defined.

(** A browser that does not start navigates nowhere, and a rejected close
    rejects a run whose pages all rendered. *)
Lemma run_rejects_on_browser_or_page_failure_witness :
  let options := mkOptions None None (Some (JS.Int 2)) in
  (starts neverStarts = false /\
   navigations (scrapeWith olxSite neverStarts options) = [] /\
   resolved (scrapeWith olxSite neverStarts options) = None) /\
  (closes closeRejects = false /\
   resolved (scrapeWith olxSite closeRejects options) = None /\
   List.length (navigations (scrapeWith olxSite closeRejects options)) = 2%nat).
Proof.
  cbv zeta. set (options := mkOptions None None (Some (JS.Int 2))).
  pose proof (run_rejects_on_browser_or_page_failure olxSite neverStarts options)
    as (Hnone & Hnav & _).
  pose proof (run_rejects_on_browser_or_page_failure olxSite closeRejects options)
    as (Hclose & _).
  cbv zeta in Hnone, Hnav, Hclose.
  split.
  - exact (conj eq_refl (conj (Hnav eq_refl)
             (proj2 Hnone (or_introl eq_refl)))).
  - refine (conj eq_refl (conj (proj2 Hclose (or_intror (or_introl eq_refl))) _)).
    vm_compute. reflexivity.
Defined.
